(** * stock-monitor: the portfolio engine of [src/index.js] and of its
      later revision [src/unnamed/part_002]

    The repository holds two revisions of one program, a command-line
    portfolio tracker.  [src/index.js] queries the TuShare endpoint and
    [src/unnamed/part_002] the Tencent one.  The two share the persistence
    layer and the valuation loop verbatim and differ in the symbol formatter,
    in the scoping of one variable of [addPosition] and in [removePosition].
    What is shared is embedded once; what differs lives in [Module Index] and
    [Module Part002].

    Data: a JavaScript number is an IEEE binary64 value, here a primitive
    [float]; a JavaScript string is a [string] (the formatter only inspects
    the characters '.', '6', '0', '3' and the letters A-Z, all ASCII).
    Effects: methods of [StockMonitor] run in a state-and-exception monad
    over [World], the instance's fields together with the two files, the
    console and the quote endpoint. *)

From Stdlib Require Import List String Ascii Bool ZArith Lia Floats DecimalString.
Import ListNotations.
Local Open Scope string_scope.

(** ** JavaScript strings *)

(** [s.includes(c)] for a one-character search string. *)
Fixpoint includes (c : ascii) (s : string) : bool :=
  match s with
  | EmptyString => false
  | String d r => Ascii.eqb d c || includes c r
  end.

(** [s.startsWith(c)] for a one-character prefix. *)
Definition startsWith (c : ascii) (s : string) : bool :=
  match s with
  | EmptyString => false
  | String d _ => Ascii.eqb d c
  end.

(** [s.split(c)] for a one-character separator: the pieces between the
    occurrences of [c], in order; never empty (["".split(".")] is [[""]]). *)
Fixpoint split (c : ascii) (s : string) : list string :=
  match s with
  | EmptyString => [EmptyString]
  | String d r =>
      if Ascii.eqb d c then EmptyString :: split c r
      else match split c r with
           | p :: ps => String d p :: ps
           | [] => [String d EmptyString]
           end
  end.

(** [toLowerCase] on one code unit: the letters A-Z move to a-z. *)
Definition lowerAscii (c : ascii) : ascii :=
  let n := nat_of_ascii c in
  if (65 <=? n)%nat && (n <=? 90)%nat then ascii_of_nat (n + 32) else c.

Fixpoint toLowerCase (s : string) : string :=
  match s with
  | EmptyString => EmptyString
  | String c r => String (lowerAscii c) (toLowerCase r)
  end.

(** ** Data model *)

(** A JavaScript number. *)
Definition number := float.
Bind Scope float_scope with number.

(** [{ apiKey }], the configuration record. *)
Record Config := { apiKey : string }.

(** One entry of [this.portfolio].  [addPosition] creates it with the first
    five fields; [dateModified] appears at the first merge. *)
Module Position.
Record t := {
  symbol : string;
  name : string;
  shares : number;
  purchasePrice : number;
  dateAdded : string;
  dateModified : option string
}.
End Position.

(** The object [getStockData] returns on success. *)
Module Quote.
Record t := {
  symbol : string;
  date : string;
  open : number;
  high : number;
  low : number;
  close : number;
  preClose : number;
  change : number;
  changePercent : number
}.
End Quote.

(** A file of the configuration directory: missing, present with a text
    [JSON.parse] rejects, or present with the text [JSON.stringify(doc, null, 2)]
    of a document.  Reading the latter back gives [doc] (what [JSON.parse]
    does for documents whose numbers are finite). *)
Inductive File (A : Type) : Type :=
| Absent
| Corrupt
| Json (doc : A).
Arguments Absent {A}.
Arguments Corrupt {A}.
Arguments Json {A} doc.

(** The instance's fields and its environment. *)
Record World := {
  config : Config;                        (* this.config *)
  portfolio : list Position.t;              (* this.portfolio *)
  configFile : File Config;               (* ~/.stock-monitor/config.json *)
  portfolioFile : File (list Position.t);   (* ~/.stock-monitor/portfolio.json *)
  writable : bool;                        (* does fs.writeFile succeed there *)
  now : string;                           (* new Date().toISOString() *)
  stderr : list string;                   (* console.error lines, oldest first *)
  endpoint : nat -> string -> option Quote.t; (* answer to the n-th request *)
  requests : nat                          (* requests sent so far *)
}.

Definition set_config (c : Config) (w : World) : World :=
  {| config := c; portfolio := portfolio w; configFile := configFile w;
     portfolioFile := portfolioFile w; writable := writable w; now := now w;
     stderr := stderr w; endpoint := endpoint w; requests := requests w |}.

Definition set_portfolio (p : list Position.t) (w : World) : World :=
  {| config := config w; portfolio := p; configFile := configFile w;
     portfolioFile := portfolioFile w; writable := writable w; now := now w;
     stderr := stderr w; endpoint := endpoint w; requests := requests w |}.

Definition set_configFile (f : File Config) (w : World) : World :=
  {| config := config w; portfolio := portfolio w; configFile := f;
     portfolioFile := portfolioFile w; writable := writable w; now := now w;
     stderr := stderr w; endpoint := endpoint w; requests := requests w |}.

Definition set_portfolioFile (f : File (list Position.t)) (w : World) : World :=
  {| config := config w; portfolio := portfolio w; configFile := configFile w;
     portfolioFile := f; writable := writable w; now := now w;
     stderr := stderr w; endpoint := endpoint w; requests := requests w |}.

Definition set_stderr (l : list string) (w : World) : World :=
  {| config := config w; portfolio := portfolio w; configFile := configFile w;
     portfolioFile := portfolioFile w; writable := writable w; now := now w;
     stderr := l; endpoint := endpoint w; requests := requests w |}.

Definition set_requests (n : nat) (w : World) : World :=
  {| config := config w; portfolio := portfolio w; configFile := configFile w;
     portfolioFile := portfolioFile w; writable := writable w; now := now w;
     stderr := stderr w; endpoint := endpoint w; requests := n |}.

(** ** Exceptions and the method monad *)

Inductive Error :=
| ENOENT                          (* fs.readFile: no such file *)
| SyntaxError                     (* JSON.parse *)
| EACCES                          (* fs.writeFile refused *)
| ReferenceError (ident : string) (* an identifier that is not in scope *)
| RequestFailed.                  (* transport error or "No data available" *)

Definition message (e : Error) : string :=
  match e with
  | ENOENT => "ENOENT: no such file or directory"
  | SyntaxError => "Unexpected token in JSON"
  | EACCES => "EACCES: permission denied"
  | ReferenceError x => x ++ " is not defined"
  | RequestFailed => "No data available"
  end.

(** How a call ends: [return v] or a [throw]. *)
Inductive Outcome (A : Type) : Type :=
| Return (v : A)
| Throw (e : Error).
Arguments Return {A} v.
Arguments Throw {A} e.

(** An (awaited) method: the outcome with the world it leaves.  Updates made
    before a [throw] stay. *)
Definition M (A : Type) : Type := World -> Outcome A * World.

Definition ret {A} (v : A) : M A := fun w => (Return v, w).
Definition throw {A} (e : Error) : M A := fun w => (Throw e, w).
Definition bind {A B} (m : M A) (k : A -> M B) : M B :=
  fun w => match m w with
           | (Return v, w') => k v w'
           | (Throw e, w') => (Throw e, w')
           end.
(** [try { m } catch (error) { h error }]. *)
Definition tryCatch {A} (m : M A) (h : Error -> M A) : M A :=
  fun w => match m w with
           | (Return v, w') => (Return v, w')
           | (Throw e, w') => h e w'
           end.
Definition gets {A} (f : World -> A) : M A := fun w => (Return (f w), w).
Definition modify (f : World -> World) : M unit := fun w => (Return tt, f w).

Declare Scope js_scope.
Delimit Scope js_scope with js.
Notation "x <- m ;; k" := (bind m (fun x => k))
  (at level 100, m at next level, right associativity) : js_scope.
Notation "m ;; k" := (bind m (fun _ => k))
  (at level 100, right associativity) : js_scope.
Local Open Scope js_scope.

(** [console.error(line)]. *)
Definition console_error (line : string) : M unit :=
  modify (fun w => set_stderr (stderr w ++ [line]) w).

(** ** Persistence (identical in both revisions) *)

(** [JSON.parse(await fs.readFile(file, "utf8"))]. *)
Definition readJson {A} (file : World -> File A) : M A :=
  fun w => match file w with
           | Absent => (Throw ENOENT, w)
           | Corrupt => (Throw SyntaxError, w)
           | Json doc => (Return doc, w)
           end.

(** [await fs.writeFile(file, JSON.stringify(doc, null, 2))]. *)
Definition writeJson {A} (store : File A -> World -> World) (doc : A) : M unit :=
  fun w => if writable w then (Return tt, store (Json doc) w)
           else (Throw EACCES, w).

Definition saveConfig : M unit :=
  c <- gets config ;; writeJson set_configFile c.

Definition loadConfig : M unit :=
  tryCatch
    (c <- readJson configFile ;; modify (set_config c))
    (fun _ => modify (set_config {| apiKey := "" |}) ;; saveConfig).

Definition savePortfolio : M unit :=
  p <- gets portfolio ;; writeJson set_portfolioFile p.

Definition loadPortfolio : M unit :=
  tryCatch
    (p <- readJson portfolioFile ;; modify (set_portfolio p))
    (fun _ => modify (set_portfolio []) ;; savePortfolio).

(** [initialize] (lines 31-39 of [index.js], 27-35 of [part_002]).  The
    worlds do not track directories, so what
    [fs.mkdir(this.configDir, { recursive: true })] does is the argument
    [mkdir]: [None] when the directory is there afterwards, the error
    otherwise. *)
Definition initialize (mkdir : option Error) : M unit :=
  tryCatch
    ((match mkdir with
      | None => ret tt
      | Some e => throw e
      end) ;;
     loadConfig ;;
     loadPortfolio)
    (fun error => console_error ("Error initializing: " ++ message error)).

(** ** Quotes and valuation (the parts both revisions share)

    The two [getStockData] differ in the endpoint and in how the answer is
    decoded; both reload the portfolio, format the symbol, send one request
    and turn every failure into a logged [null].  The endpoint is the
    [endpoint] oracle of the world.  [calculatePortfolio] is the same text in
    both files.  [toFixed x 2] stands for [x.toFixed(2)]. *)

Module ResultRow.
Record t := {
  symbol : string;
  name : string;
  shares : number;
  purchasePrice : string;
  currentPrice : string;
  todayChange : string;
  value : string;
  profit : string;
  return_ : string
}.
End ResultRow.

Module Summary.
Record t := {
  totalValue : string;
  totalCost : string;
  totalProfit : string;
  totalReturn : string
}.
End Summary.

(** An entry of the list [getPortfolioSymbols] returns. *)
Module Choice.
Record t := {
  name : string;
  value : string
}.
End Choice.

Record Valuation := {
  positions : list ResultRow.t;
  summary : Summary.t
}.

Module Shared.
Section Shared.

Variable formatStockCode : string -> string.
Variable toFixed : number -> nat -> string.

(** One round trip to the endpoint. *)
Definition request (formattedSymbol : string) : M Quote.t :=
  fun w =>
    let w' := set_requests (S (requests w)) w in
    match endpoint w (requests w) formattedSymbol with
    | Some q => (Return q, w')
    | None => (Throw RequestFailed, w')
    end.

Definition getStockData (symbol : string) : M (option Quote.t) :=
  tryCatch
    (loadPortfolio ;;
     let formattedSymbol := formatStockCode symbol in
     data <- request formattedSymbol ;;
     ret (Some data))
    (fun error =>
       console_error ("Error fetching " ++ symbol ++ ": " ++ message error) ;;
       ret None).

(** The body of [for (const position of this.portfolio)], over the
    positions still to visit, with the loop's three variables.  The array
    being walked is the one [this.portfolio] named when the loop began:
    the reloads inside [getStockData] assign a new array to the field and
    leave the walked one alone. *)
Fixpoint forOf (rest : list Position.t) (results : list ResultRow.t)
    (totalValue totalCost : number) : M (list ResultRow.t * number * number) :=
  match rest with
  | [] => ret (results, totalValue, totalCost)
  | position :: rest' =>
      data <- getStockData (Position.symbol position) ;;
      match data with
      | Some data =>
          let currentPrice := Quote.close data in
          let cost := (Position.shares position * Position.purchasePrice position)%float in
          let value := (Position.shares position * currentPrice)%float in
          let profit := (value - cost)%float in
          let returnPct := (profit / cost * 100)%float in
          forOf rest'
            (results ++
             [{| ResultRow.symbol := Position.symbol position;
                 ResultRow.name := Position.name position;   (* position.name || "" *)
                 ResultRow.shares := Position.shares position;
                 ResultRow.purchasePrice := toFixed (Position.purchasePrice position) 2;
                 ResultRow.currentPrice := toFixed currentPrice 2;
                 ResultRow.todayChange := toFixed (Quote.changePercent data) 2 ++ "%";
                 ResultRow.value := toFixed value 2;
                 ResultRow.profit := toFixed profit 2;
                 ResultRow.return_ := toFixed returnPct 2 ++ "%" |}])
            (totalValue + value)%float
            (totalCost + cost)%float
      | None => forOf rest' results totalValue totalCost
      end
  end.

Definition calculatePortfolio : M Valuation :=
  walked <- gets portfolio ;;
  final <- forOf walked [] 0%float 0%float ;;
  let '(results, totalValue, totalCost) := final in
  ret {| positions := results;
         summary :=
           {| Summary.totalValue := toFixed totalValue 2;
              Summary.totalCost := toFixed totalCost 2;
              Summary.totalProfit := toFixed (totalValue - totalCost)%float 2;
              Summary.totalReturn :=
                toFixed ((totalValue - totalCost) / totalCost * 100)%float 2 |} |}.

End Shared.
End Shared.

(** [array.find(test)] is [List.find]; an in-place update of the object it
    returned is an update of the first element that passes [test]. *)
Fixpoint updateFirst {A} (test : A -> bool) (f : A -> A) (l : list A) : list A :=
  match l with
  | [] => []
  | x :: r => if test x then f x :: r else x :: updateFirst test f r
  end.

(** ** [src/index.js] *)

Module Index.

(** Lines 72-81. *)
Definition formatStockCode (symbol : string) : string :=
  if includes "." symbol then symbol
  else if startsWith "6" symbol then symbol ++ ".SH"
  else if startsWith "0" symbol || startsWith "3" symbol then symbol ++ ".SZ"
  else symbol.

Definition getStockData := Shared.getStockData formatStockCode.

(** Lines 136-174.  [position] is declared with [const] inside the [else]
    block, so the [return existingPosition || position] after the block
    reads an identifier that is not in scope whenever [existingPosition] is
    [undefined]; in a module (strict code) that is a [ReferenceError]. *)
Definition addPosition (symbol : string) (shares purchasePrice : number)
    (name : string) : M Position.t :=
  let formattedSymbol := formatStockCode symbol in
  existingPosition <-
    gets (fun w => find (fun p => Position.symbol p =? formattedSymbol)
                        (portfolio w)) ;;
  match existingPosition with
  | Some existingPosition =>
      let totalOldCost :=
        (Position.shares existingPosition
         * Position.purchasePrice existingPosition)%float in
      let totalNewCost := (shares * purchasePrice)%float in
      let totalShares := (Position.shares existingPosition + shares)%float in
      let averagePrice := ((totalOldCost + totalNewCost) / totalShares)%float in
      timestamp <- gets now ;;
      let updated :=
        {| Position.symbol := Position.symbol existingPosition;
           Position.name := if name =? "" then Position.name existingPosition
                            else name;
           Position.shares := totalShares;
           Position.purchasePrice := averagePrice;
           Position.dateAdded := Position.dateAdded existingPosition;
           Position.dateModified := Some timestamp |} in
      modify (fun w =>
        set_portfolio
          (updateFirst (fun p => Position.symbol p =? formattedSymbol)
                       (fun _ => updated) (portfolio w)) w) ;;
      savePortfolio ;;
      ret updated
  | None =>
      timestamp <- gets now ;;
      let position :=
        {| Position.symbol := formattedSymbol;
           Position.name := name;
           Position.shares := shares;
           Position.purchasePrice := purchasePrice;
           Position.dateAdded := timestamp;
           Position.dateModified := None |} in
      modify (fun w => set_portfolio (portfolio w ++ [position]) w) ;;
      savePortfolio ;;
      throw (ReferenceError "position")
  end.

(** Lines 176-180. *)
Definition removePosition (symbol : string) : M unit :=
  let formattedSymbol := formatStockCode symbol in
  modify (fun w =>
    set_portfolio
      (filter (fun p => negb (Position.symbol p =? formattedSymbol))
              (portfolio w)) w) ;;
  savePortfolio.

Definition calculatePortfolio := Shared.calculatePortfolio formatStockCode.

End Index.

(** ** [src/unnamed/part_002] *)

Module Part002.

(** Lines 68-80.  The destructuring [[code, market] = symbol.split(".")]
    takes the first two pieces; under the guard [symbol.includes(".")]
    there are at least two of them (lemma [split_two]), so the [""]
    defaults below are never used. *)
Definition formatStockCode (symbol : string) : string :=
  if includes "." symbol then
    let pieces := split "." symbol in
    let code := nth 0 pieces "" in
    let market := nth 1 pieces "" in
    toLowerCase market ++ code
  else if startsWith "6" symbol then "sh" ++ symbol
  else if startsWith "0" symbol || startsWith "3" symbol then "sz" ++ symbol
  else symbol.

Definition getStockData := Shared.getStockData formatStockCode.

(** Lines 116-154: as in [src/index.js], with [let position] declared
    before the branch. *)
Definition addPosition (symbol : string) (shares purchasePrice : number)
    (name : string) : M Position.t :=
  let formattedSymbol := formatStockCode symbol in
  existingPosition <-
    gets (fun w => find (fun p => Position.symbol p =? formattedSymbol)
                        (portfolio w)) ;;
  match existingPosition with
  | Some existingPosition =>
      let totalOldCost :=
        (Position.shares existingPosition
         * Position.purchasePrice existingPosition)%float in
      let totalNewCost := (shares * purchasePrice)%float in
      let totalShares := (Position.shares existingPosition + shares)%float in
      let averagePrice := ((totalOldCost + totalNewCost) / totalShares)%float in
      timestamp <- gets now ;;
      let updated :=
        {| Position.symbol := Position.symbol existingPosition;
           Position.name := if name =? "" then Position.name existingPosition
                            else name;
           Position.shares := totalShares;
           Position.purchasePrice := averagePrice;
           Position.dateAdded := Position.dateAdded existingPosition;
           Position.dateModified := Some timestamp |} in
      modify (fun w =>
        set_portfolio
          (updateFirst (fun p => Position.symbol p =? formattedSymbol)
                       (fun _ => updated) (portfolio w)) w) ;;
      savePortfolio ;;
      ret updated
  | None =>
      timestamp <- gets now ;;
      let position :=
        {| Position.symbol := formattedSymbol;
           Position.name := name;
           Position.shares := shares;
           Position.purchasePrice := purchasePrice;
           Position.dateAdded := timestamp;
           Position.dateModified := None |} in
      modify (fun w => set_portfolio (portfolio w ++ [position]) w) ;;
      savePortfolio ;;
      ret position
  end.

(** Lines 156-167. *)
Definition removePosition (symbol : string) : M unit :=
  position <-
    gets (fun w => find (fun p => (Position.name p =? symbol)
                                  || (Position.symbol p =? symbol))
                        (portfolio w)) ;;
  match position with
  | None => console_error "Position not found"
  | Some _ =>
      let formattedSymbol := formatStockCode symbol in
      modify (fun w =>
        set_portfolio
          (filter (fun p => negb (Position.symbol p =? formattedSymbol))
                  (portfolio w)) w) ;;
      savePortfolio
  end.

Definition calculatePortfolio := Shared.calculatePortfolio formatStockCode.

(** Lines 351-357. *)
Definition getPortfolioSymbols : M (list Choice.t) :=
  loadPortfolio ;;
  current <- gets portfolio ;;
  ret (map (fun position =>
              {| Choice.name :=
                   Position.symbol position ++ " ("
                   ++ (if Position.name position =? "" then "No Name"
                       else Position.name position)
                   ++ ")";
                 Choice.value := Position.symbol position |})
           current).

End Part002.

(** ** [Number.prototype.toFixed]

    The library function behind the [toFixed] parameter of the valuation,
    after ECMA-262 (Number.prototype.toFixed and Number::toString); it is
    what the worked examples below are evaluated with. *)

(** The decimal digits of a non-negative integer. *)
Definition decimal (n : Z) : string :=
  NilZero.string_of_uint (N.to_uint (Z.to_N n)).

Fixpoint zeros (k : nat) : string :=
  match k with
  | O => ""
  | S k' => String "0" (zeros k')
  end.

(** The digits of [n] with a point before the last [f] of them, padded with
    zeros on the left to [f + 1] digits. *)
Definition pointed (n : Z) (f : nat) : string :=
  let m := decimal n in
  match f with
  | O => m
  | _ =>
      let m := zeros (S f - String.length m) ++ m in
      let k := String.length m in
      substring 0 (k - f) m ++ "." ++ substring (k - f) f m
  end.

(** The Number nearest to an integer (ties to even). *)
Definition ofZ (z : Z) : number :=
  SF2Prim (binary_normalize prec emax z 0 false).

(** [Number::toString] of an integral [x >= 10^21] that has [digits] decimal
    digits: the shortest digit string [s], of [k] digits, such that
    [s * 10^(digits-k)] reads back as the same Number, the one nearest to [x]
    when two do (the even one on a tie), in exponential notation.  Seventeen
    digits always suffice. *)
Fixpoint shortest (x : Z) (digits k fuel : nat) : string :=
  match fuel with
  | O => ""
  | S fuel' =>
      let p := (10 ^ Z.of_nat (digits - k))%Z in
      let lo := (x / p)%Z in
      let hi := (lo + 1)%Z in
      let ok s := Leibniz.eqb (ofZ (s * p)) (ofZ x) in
      let best :=
        if ok lo && ok hi
        then Some (match (x - lo * p ?= hi * p - x)%Z with
                   | Lt => lo
                   | Gt => hi
                   | Eq => if Z.even lo then lo else hi
                   end)
        else if ok lo then Some lo
        else if ok hi then Some hi
        else None in
      match best with
      | Some s =>
          let '(s, n) :=
            if (s =? 10 ^ Z.of_nat k)%Z then ((s / 10)%Z, S digits)
            else (s, digits) in
          let d := decimal s in
          substring 0 1 d
          ++ (if (k =? 1)%nat then "" else "." ++ substring 1 (k - 1) d)
          ++ "e+" ++ decimal (Z.of_nat (n - 1))
      | None => shortest x digits (S k) fuel'
      end
  end.

Definition Number_toFixed (x : number) (fractionDigits : nat) : string :=
  match Prim2SF x with
  | S754_nan => "NaN"
  | S754_infinity s => if s then "-Infinity" else "Infinity"
  | S754_zero _ => pointed 0 fractionDigits
  | S754_finite s m e =>
      let sign := if s then "-" else "" in
      let num := (Z.pos m * 2 ^ Z.max e 0)%Z in
      let den := (2 ^ Z.max (- e) 0)%Z in
      if (10 ^ 21 * den <=? num)%Z
      then sign ++ shortest (num / den) (String.length (decimal (num / den))) 1 17
      else
        let n := ((2 * num * 10 ^ Z.of_nat fractionDigits + den) / (2 * den))%Z in
        sign ++ pointed n fractionDigits
  end.

(** ** Vocabulary of the statements *)

(** Does the symbol begin with one of the digits the formatter looks for. *)
Definition leads630 (s : string) : bool :=
  startsWith "6" s || startsWith "0" s || startsWith "3" s.

(** A file [readJson] throws on. *)
Definition unreadable {A} (f : File A) : Prop :=
  match f with
  | Json _ => False
  | _ => True
  end.

(** The two revisions behind one name each, for the statements that hold of
    both. *)
Inductive Revision := index_js | part_002.

Definition formatStockCode (r : Revision) : string -> string :=
  match r with
  | index_js => Index.formatStockCode
  | part_002 => Part002.formatStockCode
  end.

Definition addPosition (r : Revision) :
    string -> number -> number -> string -> M Position.t :=
  match r with
  | index_js => Index.addPosition
  | part_002 => Part002.addPosition
  end.

Definition removePosition (r : Revision) : string -> M unit :=
  match r with
  | index_js => Index.removePosition
  | part_002 => Part002.removePosition
  end.

(** [p.symbol === key], the test of [find] and (negated) of [filter]. *)
Definition held (key : string) (p : Position.t) : bool :=
  Position.symbol p =? key.

(** Can [loadPortfolio] return normally: the file parses, or the default can
    be written in its place. *)
Definition loads (w : World) : bool :=
  match portfolioFile w with
  | Json _ => true
  | _ => writable w
  end.

(** The quote results of a valuation that starts in world [w] with [n]
    requests sent: each position of the walk with what its fetch gives.
    A fetch sends the next request when the reload before it succeeds, and
    fails without sending when it does not. *)
Fixpoint fetched (fmt : string -> string) (w : World) (n : nat)
    (walk : list Position.t) : list (Position.t * option Quote.t) :=
  match walk with
  | [] => []
  | p :: rest =>
      (p, if loads w then endpoint w n (fmt (Position.symbol p)) else None)
      :: fetched fmt w (S n) rest
  end.

(** The positions whose fetch returned a quote, with that quote. *)
Fixpoint quoted (l : list (Position.t * option Quote.t))
    : list (Position.t * Quote.t) :=
  match l with
  | [] => []
  | (p, Some q) :: rest => (p, q) :: quoted rest
  | (_, None) :: rest => quoted rest
  end.

(** The four figures of a quoted position, in the words of the claim. *)
Definition cost (pq : Position.t * Quote.t) : number :=
  (Position.shares (fst pq) * Position.purchasePrice (fst pq))%float.
Definition value (pq : Position.t * Quote.t) : number :=
  (Position.shares (fst pq) * Quote.close (snd pq))%float.
Definition profit (pq : Position.t * Quote.t) : number :=
  (value pq - cost pq)%float.
Definition returnPct (pq : Position.t * Quote.t) : number :=
  (profit pq / cost pq * 100)%float.

(** The sum of a list of numbers, added from the left starting at [0]. *)
Definition total (l : list number) : number := fold_left PrimFloat.add l 0%float.

(** The row shown for a quoted position. *)
Definition row (toFixed : number -> nat -> string)
    (pq : Position.t * Quote.t) : ResultRow.t :=
  {| ResultRow.symbol := Position.symbol (fst pq);
     ResultRow.name := Position.name (fst pq);
     ResultRow.shares := Position.shares (fst pq);
     ResultRow.purchasePrice := toFixed (Position.purchasePrice (fst pq)) 2;
     ResultRow.currentPrice := toFixed (Quote.close (snd pq)) 2;
     ResultRow.todayChange := toFixed (Quote.changePercent (snd pq)) 2 ++ "%";
     ResultRow.value := toFixed (value pq) 2;
     ResultRow.profit := toFixed (profit pq) 2;
     ResultRow.return_ := toFixed (returnPct pq) 2 ++ "%" |}.

(** Can [loadConfig] return normally. *)
Definition configLoads (w : World) : bool :=
  match configFile w with
  | Json _ => true
  | _ => writable w
  end.

(** What a reload leaves in memory: the document on disk, or the empty
    portfolio when the file is missing or does not parse. *)
Definition reloaded (w : World) : list Position.t :=
  match portfolioFile w with
  | Json p => p
  | _ => []
  end.

(** Memory and disk agree on the portfolio. *)
Definition synced (w : World) : Prop := portfolioFile w = Json (portfolio w).

(** No two positions share a symbol. *)
Definition distinctSymbols (l : list Position.t) : Prop :=
  NoDup (map Position.symbol l).

(** The positions whose fetch failed. *)
Fixpoint unquoted (l : list (Position.t * option Quote.t)) : list Position.t :=
  match l with
  | [] => []
  | (p, None) :: rest => p :: unquoted rest
  | (_, Some _) :: rest => unquoted rest
  end.

(** A line [getStockData] logs for [symbol]. *)
Definition complains (symbol line : string) : Prop :=
  exists error, line = "Error fetching " ++ symbol ++ ": " ++ message error.

(** ** Worlds the examples run in *)

Definition silent : nat -> string -> option Quote.t := fun _ _ => None.

(** A first run: empty directory, empty state. *)
Definition firstRun : World :=
  {| config := {| apiKey := "" |}; portfolio := [];
     configFile := Absent; portfolioFile := Absent; writable := true;
     now := "2024-03-01T09:30:00.000Z"; stderr := [];
     endpoint := silent; requests := 0 |}.

(** The same with a directory that refuses writes. *)
Definition readOnlyRun : World :=
  {| config := {| apiKey := "" |}; portfolio := [];
     configFile := Absent; portfolioFile := Corrupt; writable := false;
     now := "2024-03-01T09:30:00.000Z"; stderr := [];
     endpoint := silent; requests := 0 |}.

(** A run that holds the given portfolio, in memory and on disk. *)
Definition holding (p : list Position.t) : World :=
  {| config := {| apiKey := "" |}; portfolio := p;
     configFile := Json {| apiKey := "" |}; portfolioFile := Json p;
     writable := true;
     now := "2024-03-01T09:30:00.000Z"; stderr := [];
     endpoint := silent; requests := 0 |}.

Definition bank (key : string) : Position.t :=
  {| Position.symbol := key; Position.name := "PF Bank";
     Position.shares := 50%float; Position.purchasePrice := 5%float;
     Position.dateAdded := "2024-02-01T09:30:00.000Z";
     Position.dateModified := None |}.

(** A quote that closes at [c]. *)
Definition closing (key : string) (c : number) : Quote.t :=
  {| Quote.symbol := key; Quote.date := "20240301";
     Quote.open := c; Quote.high := c; Quote.low := c; Quote.close := c;
     Quote.preClose := c; Quote.change := 0; Quote.changePercent := 0 |}.

Definition lot (key : string) (n price : number) : Position.t :=
  {| Position.symbol := key; Position.name := "";
     Position.shares := n; Position.purchasePrice := price;
     Position.dateAdded := "2024-02-01T09:30:00.000Z";
     Position.dateModified := None |}.

(** One share of 600000 bought at 4.885 and one of 000001 bought at 3.462,
    on a day they close at 8.371 and 8.221; 601398 gets no answer. *)
#[warnings="-inexact-float"]
Definition tradingDay : World :=
  {| config := {| apiKey := "" |};
     portfolio := [lot "600000.SH" 1 4.885; lot "601398.SH" 100 5;
                   lot "000001.SZ" 1 3.462];
     configFile := Json {| apiKey := "" |};
     portfolioFile := Json [lot "600000.SH" 1 4.885; lot "601398.SH" 100 5;
                            lot "000001.SZ" 1 3.462];
     writable := true;
     now := "2024-03-01T09:30:00.000Z"; stderr := [];
     endpoint := fun _ key =>
       if key =? "600000.SH" then Some (closing key 8.371)
       else if key =? "000001.SZ" then Some (closing key 8.221)
       else None;
     requests := 0 |}.

(** The example of the specification: 100 shares bought at 10.00, closing
    at 11.00. *)
Definition exampleDay : World :=
  {| config := {| apiKey := "" |};
     portfolio := [lot "600000.SH" 100 10];
     configFile := Json {| apiKey := "" |};
     portfolioFile := Json [lot "600000.SH" 100 10];
     writable := true;
     now := "2024-03-01T09:30:00.000Z"; stderr := [];
     endpoint := fun _ key => Some (closing key 11);
     requests := 0 |}.

(** * Properties *)

(** Runs the monad's plumbing and the persistence calls in the goal. *)
Ltac js_run :=
  unfold savePortfolio, saveConfig, console_error, tryCatch, bind, gets,
    modify, ret, throw, readJson, writeJson;
  simpl.

(** ** Strings *)

Lemma includes_app c a b : includes c (a ++ b) = includes c a || includes c b.
Proof.
  induction a as [|d a IH]; simpl; [reflexivity|].
  now rewrite IH, orb_assoc.
Qed.

Lemma split_nonempty c s : split c s <> [].
Proof.
  destruct s as [|d r]; simpl; [discriminate|].
  destruct (Ascii.eqb d c); [discriminate|].
  destruct (split c r); discriminate.
Qed.

Lemma split_plain c s : includes c s = false -> split c s = [s].
Proof.
  induction s as [|d r IH]; simpl; [reflexivity|].
  intros H. apply orb_false_iff in H as [Hd Hr].
  now rewrite Hd, (IH Hr).
Qed.

Lemma split_app c code tail :
  includes c code = false ->
  split c (code ++ String c tail) = code :: split c tail.
Proof.
  induction code as [|d r IH]; simpl; intros H.
  - now rewrite Ascii.eqb_refl.
  - apply orb_false_iff in H as [Hd Hr].
    now rewrite Hd, (IH Hr).
Qed.

(** Under the guard of the qualified branch the destructuring finds its two
    pieces. *)
Lemma split_two c s :
  includes c s = true ->
  exists code market rest, split c s = code :: market :: rest.
Proof.
  induction s as [|d r IH]; simpl; [discriminate|].
  destruct (Ascii.eqb d c) eqn:Hd; simpl.
  - intros _. destruct (split c r) as [|m rest] eqn:Hs.
    + now apply split_nonempty in Hs.
    + now exists EmptyString, m, rest.
  - intros H. destruct (IH H) as (code & market & rest & ->).
    now exists (String d code), market, rest.
Qed.

Lemma split_pieces c s : Forall (fun p => includes c p = false) (split c s).
Proof.
  induction s as [|d r IH]; simpl.
  - now constructor.
  - destruct (Ascii.eqb d c) eqn:Hd.
    + now constructor.
    + destruct (split c r) as [|p ps].
      * constructor; [simpl; now rewrite Hd|constructor].
      * inversion IH; subst. constructor; [simpl; now rewrite Hd|assumption].
Qed.

Lemma lowerAscii_dot c : Ascii.eqb (lowerAscii c) "." = Ascii.eqb c ".".
Proof. destruct c as [[] [] [] [] [] [] [] []]; reflexivity. Qed.

Lemma toLowerCase_includes_dot s :
  includes "." (toLowerCase s) = includes "." s.
Proof.
  induction s as [|c r IH]; simpl; [reflexivity|].
  now rewrite lowerAscii_dot, IH.
Qed.

Lemma length_append (a b : string) :
  String.length (a ++ b) = String.length a + String.length b.
Proof. induction a as [|c a IH]; simpl; [reflexivity|now rewrite IH]. Qed.

Lemma append_longer a s : a <> "" -> a ++ s <> s.
Proof.
  intros Ha H. apply (f_equal String.length) in H.
  rewrite length_append in H.
  destruct a; [congruence|simpl in H; lia].
Qed.

(** The qualified branch of [part_002] in terms of the pieces. *)
Lemma Part002_qualified s :
  includes "." s = true ->
  exists code market rest,
    split "." s = code :: market :: rest /\
    Part002.formatStockCode s = toLowerCase market ++ code /\
    includes "." (toLowerCase market ++ code) = false.
Proof.
  intros H. destruct (split_two _ _ H) as (code & market & rest & Hs).
  exists code, market, rest. split; [assumption|].
  unfold Part002.formatStockCode. rewrite H, Hs. simpl. split; [reflexivity|].
  pose proof (split_pieces "." s) as F. rewrite Hs in F.
  inversion F as [|? ? Hc F']; subst. inversion F' as [|? ? Hm _]; subst.
  now rewrite includes_app, toLowerCase_includes_dot, Hm, Hc.
Qed.

(** A bare symbol is formatted by its first character alone. *)
Lemma Part002_plain s :
  includes "." s = false ->
  Part002.formatStockCode s =
    if startsWith "6" s then "sh" ++ s
    else if startsWith "0" s || startsWith "3" s then "sz" ++ s
    else s.
Proof. intros H. unfold Part002.formatStockCode. now rewrite H. Qed.

(** ** The symbol formatter *)

Lemma Index_plain s :
  includes "." s = false ->
  Index.formatStockCode s =
    if startsWith "6" s then s ++ ".SH"
    else if startsWith "0" s || startsWith "3" s then s ++ ".SZ"
    else s.
Proof. intros H. unfold Index.formatStockCode. now rewrite H. Qed.

(** C3, as the code has it.  A symbol that contains the separator: [index.js]
    returns it as it is; [part_002] returns the lower-cased text between the
    first and the second separator followed by the text before the first one
    (so [code.EXCHANGE] becomes [exchangecode]), dropping what follows a
    second separator.  A symbol without separator: a leading "6" gives the
    Shanghai form ([code.SH], [shcode]), a leading "0" or "3" the Shenzhen
    form ([code.SZ], [szcode]), and anything else, the empty string included,
    comes back unchanged. *)
Theorem C3_formatStockCode_cases :
  (forall s, includes "." s = true -> Index.formatStockCode s = s) /\
  (forall code market,
     includes "." code = false -> includes "." market = false ->
     Part002.formatStockCode (code ++ "." ++ market) = toLowerCase market ++ code) /\
  (forall code market rest,
     includes "." code = false -> includes "." market = false ->
     Part002.formatStockCode (code ++ "." ++ market ++ "." ++ rest)
       = toLowerCase market ++ code) /\
  (forall s,
     includes "." s = false ->
     (startsWith "6" s = true ->
        Index.formatStockCode s = s ++ ".SH" /\
        Part002.formatStockCode s = "sh" ++ s) /\
     (startsWith "0" s = true \/ startsWith "3" s = true ->
        Index.formatStockCode s = s ++ ".SZ" /\
        Part002.formatStockCode s = "sz" ++ s) /\
     (leads630 s = false ->
        Index.formatStockCode s = s /\ Part002.formatStockCode s = s)).
Proof.
  repeat split.
  - intros s H. unfold Index.formatStockCode. now rewrite H.
  - intros code market Hc Hm. unfold Part002.formatStockCode.
    assert (Hi : includes "." (code ++ "." ++ market) = true).
    { rewrite includes_app. simpl. now rewrite orb_true_r. }
    rewrite Hi. change (code ++ "." ++ market) with (code ++ String "." market).
    rewrite (split_app _ _ _ Hc), (split_plain _ _ Hm). reflexivity.
  - intros code market rest Hc Hm. unfold Part002.formatStockCode.
    assert (Hi : includes "." (code ++ "." ++ market ++ "." ++ rest) = true).
    { rewrite includes_app. simpl. now rewrite orb_true_r. }
    rewrite Hi.
    change (code ++ "." ++ market ++ "." ++ rest)
      with (code ++ String "." (market ++ String "." rest)).
    rewrite (split_app _ _ _ Hc), (split_app _ _ _ Hm). reflexivity.
  - now rewrite (Index_plain _ H), H0.
  - now rewrite (Part002_plain _ H), H0.
  - rewrite (Index_plain _ H).
    destruct (startsWith "6" s) eqn:H6.
    + destruct s as [|c r]; [discriminate|]. simpl in *.
      apply Ascii.eqb_eq in H6. subst c. destruct H0 as [H0|H0]; discriminate.
    + destruct H0 as [-> | ->]; [reflexivity | now rewrite orb_true_r].
  - rewrite (Part002_plain _ H).
    destruct (startsWith "6" s) eqn:H6.
    + destruct s as [|c r]; [discriminate|]. simpl in *.
      apply Ascii.eqb_eq in H6. subst c. destruct H0 as [H0|H0]; discriminate.
    + destruct H0 as [-> | ->]; [reflexivity | now rewrite orb_true_r].
  - rewrite (Index_plain _ H). unfold leads630 in H0.
    apply orb_false_iff in H0 as [H0 H3]. apply orb_false_iff in H0 as [H6 H0].
    now rewrite H6, H0, H3.
  - rewrite (Part002_plain _ H). unfold leads630 in H0.
    apply orb_false_iff in H0 as [H0 H3]. apply orb_false_iff in H0 as [H6 H0].
    now rewrite H6, H0, H3.
Qed.

(** C3, witness: the four cases at "600000.SH", "600000", "000001" and
    "AAPL". *)
Lemma C3_formatStockCode_witness :
  Index.formatStockCode "600000.SH" = "600000.SH" /\
  Part002.formatStockCode "600000.SH" = "sh600000" /\
  Part002.formatStockCode "600000.SH.x" = "sh600000" /\
  (Index.formatStockCode "600000" = "600000.SH" /\
   Part002.formatStockCode "600000" = "sh600000") /\
  (Index.formatStockCode "000001" = "000001.SZ" /\
   Part002.formatStockCode "000001" = "sz000001") /\
  (Index.formatStockCode "AAPL" = "AAPL" /\
   Part002.formatStockCode "AAPL" = "AAPL").
Proof.
  destruct C3_formatStockCode_cases as (Hq & Hp & Hp' & Hb).
  split; [exact (Hq "600000.SH" eq_refl)|].
  split; [exact (Hp "600000" "SH" eq_refl eq_refl)|].
  split; [exact (Hp' "600000" "SH" "x" eq_refl eq_refl)|].
  split; [exact (proj1 (Hb "600000" eq_refl) eq_refl)|].
  split; [exact (proj1 (proj2 (Hb "000001" eq_refl)) (or_introl eq_refl))|].
  exact (proj2 (proj2 (Hb "AAPL" eq_refl)) eq_refl).
Defined.

(** C3, counterexample: [index.js] does not normalise a qualified symbol.
    The lower-case "600000.sh" comes back in lower case, while the form the
    formatter itself builds for that code, and the endpoint expects, is
    "600000.SH". *)
Lemma C3_counterexample :
  Index.formatStockCode "600000.sh" = "600000.sh" /\
  Index.formatStockCode "600000" = "600000.SH" /\
  Index.formatStockCode "600000.sh" <> Index.formatStockCode "600000".
Proof. repeat split. discriminate. Qed.

(** What [part_002] returns never contains the separator, unless the input
    was a bare symbol to begin with (and then neither does). *)
Lemma Part002_no_dot s : includes "." (Part002.formatStockCode s) = false.
Proof.
  destruct (includes "." s) eqn:H.
  - destruct (Part002_qualified _ H) as (c & m & r & _ & -> & Hn). exact Hn.
  - rewrite (Part002_plain _ H).
    destruct (startsWith "6" s); [exact H|].
    destruct (startsWith "0" s || startsWith "3" s); exact H.
Qed.

Lemma Part002_fixed s :
  includes "." s = false -> leads630 s = false -> Part002.formatStockCode s = s.
Proof.
  intros H L. rewrite (Part002_plain _ H). unfold leads630 in L.
  apply orb_false_iff in L as [L H3]. apply orb_false_iff in L as [H6 H0].
  now rewrite H6, H0, H3.
Qed.

Lemma Part002_moved s :
  includes "." s = false -> leads630 s = true -> Part002.formatStockCode s <> s.
Proof.
  intros H L. rewrite (Part002_plain _ H). unfold leads630 in L.
  destruct (startsWith "6" s); [apply append_longer; discriminate|].
  destruct (startsWith "0" s || startsWith "3" s) eqn:E.
  - apply append_longer; discriminate.
  - simpl in L. rewrite orb_false_iff in E. destruct E as [E0 E3].
    rewrite E0, E3 in L. discriminate.
Qed.

(** C4, as the code has it.  In [index.js] formatting a formatted symbol
    changes nothing, for every input.  In [part_002] that holds exactly for
    the inputs without separator and for those whose formatted form does not
    begin with "6", "0" or "3" (every [code.EXCHANGE] whose exchange part
    begins with a letter is one). *)
Theorem C4_formatStockCode_idempotent :
  (forall s,
     Index.formatStockCode (Index.formatStockCode s) = Index.formatStockCode s) /\
  (forall s,
     Part002.formatStockCode (Part002.formatStockCode s) = Part002.formatStockCode s
     <-> (includes "." s = false \/ leads630 (Part002.formatStockCode s) = false)).
Proof.
  split.
  - intros s. unfold Index.formatStockCode at 2 3.
    destruct (includes "." s) eqn:H.
    + unfold Index.formatStockCode. now rewrite H.
    + assert (D : forall t, includes "." (s ++ String "." t) = true).
      { intros t. rewrite includes_app. simpl. now rewrite orb_true_r. }
      destruct (startsWith "6" s) eqn:H6.
      { unfold Index.formatStockCode. now rewrite (D "SH"). }
      destruct (startsWith "0" s || startsWith "3" s) eqn:H03.
      { unfold Index.formatStockCode. now rewrite (D "SZ"). }
      unfold Index.formatStockCode. now rewrite H, H6, H03.
  - intros s. pose proof (Part002_no_dot s) as N. split.
    + intros I. destruct (includes "." s) eqn:H; [right|now left].
      destruct (leads630 (Part002.formatStockCode s)) eqn:L; [|reflexivity].
      now destruct (Part002_moved _ N L).
    + intros [H|L].
      * rewrite (Part002_plain _ H).
        destruct (startsWith "6" s) eqn:H6.
        { apply Part002_fixed; [|reflexivity].
          rewrite includes_app. now rewrite H. }
        destruct (startsWith "0" s || startsWith "3" s) eqn:H03.
        { apply Part002_fixed; [|reflexivity].
          rewrite includes_app. now rewrite H. }
        apply Part002_fixed; [assumption|].
        unfold leads630. rewrite H6. apply orb_false_iff in H03 as [-> ->].
        reflexivity.
      * now apply Part002_fixed.
Qed.

(** C4, counterexample: in [part_002], "sh.600000" is formatted to
    "600000sh", and that to "sh600000sh". *)
Lemma C4_counterexample :
  Part002.formatStockCode (Part002.formatStockCode "sh.600000")
    <> Part002.formatStockCode "sh.600000".
Proof. discriminate. Qed.

(** ** Persistence *)

Lemma loadConfig_unreadable w :
  unreadable (configFile w) ->
  loadConfig w =
    if writable w
    then (Return tt,
          set_configFile (Json {| apiKey := "" |}) (set_config {| apiKey := "" |} w))
    else (Throw EACCES, set_config {| apiKey := "" |} w).
Proof.
  intros U. unfold loadConfig. js_run.
  destruct (configFile w); try contradiction;
    simpl; destruct (writable w); reflexivity.
Qed.

Lemma loadPortfolio_unreadable w :
  unreadable (portfolioFile w) ->
  loadPortfolio w =
    if writable w
    then (Return tt, set_portfolioFile (Json []) (set_portfolio [] w))
    else (Throw EACCES, set_portfolio [] w).
Proof.
  intros U. unfold loadPortfolio. js_run.
  destruct (portfolioFile w); try contradiction;
    simpl; destruct (writable w); reflexivity.
Qed.

(** C8, as the code has it.  When the backing file is missing or does not
    parse, the loader puts the default record in memory (a configuration
    with an empty [apiKey]; an empty portfolio) and writes it back at once.
    If that write succeeds the default is on disk and the loader returns
    normally; if it fails, the write's error leaves the loader, the default
    staying in memory and the file as it was. *)
Theorem C8_load_substitutes_default (w : World) :
  (unreadable (configFile w) ->
     config (snd (loadConfig w)) = {| apiKey := "" |} /\
     (writable w = true ->
        fst (loadConfig w) = Return tt /\
        configFile (snd (loadConfig w)) = Json {| apiKey := "" |}) /\
     (writable w = false ->
        fst (loadConfig w) = Throw EACCES /\
        configFile (snd (loadConfig w)) = configFile w)) /\
  (unreadable (portfolioFile w) ->
     portfolio (snd (loadPortfolio w)) = [] /\
     (writable w = true ->
        fst (loadPortfolio w) = Return tt /\
        portfolioFile (snd (loadPortfolio w)) = Json []) /\
     (writable w = false ->
        fst (loadPortfolio w) = Throw EACCES /\
        portfolioFile (snd (loadPortfolio w)) = portfolioFile w)).
Proof.
  split; intros U.
  - rewrite (loadConfig_unreadable _ U).
    destruct (writable w); repeat split; intros; try reflexivity; discriminate.
  - rewrite (loadPortfolio_unreadable _ U).
    destruct (writable w); repeat split; intros; try reflexivity; discriminate.
Qed.

(** C8, witness: the first run, where both files are missing and the
    directory takes writes. *)
Lemma C8_load_witness :
  (config (snd (loadConfig firstRun)) = {| apiKey := "" |} /\
   fst (loadConfig firstRun) = Return tt /\
   configFile (snd (loadConfig firstRun)) = Json {| apiKey := "" |}) /\
  (portfolio (snd (loadPortfolio firstRun)) = [] /\
   fst (loadPortfolio firstRun) = Return tt /\
   portfolioFile (snd (loadPortfolio firstRun)) = Json []).
Proof.
  destruct (C8_load_substitutes_default firstRun) as [Hc Hp].
  destruct (Hc I) as (c1 & c2 & _). destruct (Hp I) as (p1 & p2 & _).
  destruct (c2 eq_refl) as [c3 c4]. destruct (p2 eq_refl) as [p3 p4].
  repeat split; assumption.
Defined.

(** C8, counterexample: with a missing configuration file (and a portfolio
    file that does not parse) in a directory that refuses writes, each loader
    ends in the write's error and nothing is persisted. *)
Lemma C8_counterexample :
  (unreadable (configFile readOnlyRun) /\
   fst (loadConfig readOnlyRun) = Throw EACCES /\
   configFile (snd (loadConfig readOnlyRun)) = Absent) /\
  (unreadable (portfolioFile readOnlyRun) /\
   fst (loadPortfolio readOnlyRun) = Throw EACCES /\
   portfolioFile (snd (loadPortfolio readOnlyRun)) = Corrupt).
Proof. repeat split. Qed.

(** ** Lists: [find], [filter] and the in-place update *)

Lemma find_none_iff {A} (test : A -> bool) l :
  find test l = None <-> (forall x, In x l -> test x = false).
Proof.
  split; [apply find_none|].
  induction l as [|x r IH]; simpl; [reflexivity|]. intros H.
  rewrite (H x (or_introl eq_refl)). apply IH. intros y Hy. apply H. now right.
Qed.

Lemma find_app_none {A} (test : A -> bool) l l' :
  find test l = None -> find test (l ++ l')%list = find test l'.
Proof.
  induction l as [|x r IH]; simpl; [reflexivity|].
  destruct (test x); [discriminate|exact IH].
Qed.

Lemma updateFirst_app_none {A} (test : A -> bool) f l l' :
  find test l = None ->
  updateFirst test f (l ++ l')%list = (l ++ updateFirst test f l')%list.
Proof.
  induction l as [|x r IH]; simpl; [reflexivity|].
  destruct (test x); [discriminate|]. intros H. now rewrite (IH H).
Qed.

Lemma find_updateFirst {A} (test : A -> bool) f l e :
  find test l = Some e -> test (f e) = true ->
  find test (updateFirst test f l) = Some (f e).
Proof.
  induction l as [|x r IH]; simpl; [discriminate|].
  destruct (test x) eqn:T; simpl.
  - intros [= ->] ->. reflexivity.
  - rewrite T. exact IH.
Qed.

Lemma filter_none {A} (test : A -> bool) l :
  find test l = None -> filter test l = [].
Proof.
  induction l as [|x r IH]; simpl; [reflexivity|].
  destruct (test x); [discriminate|exact IH].
Qed.

Lemma filter_negb_none {A} (test : A -> bool) l :
  find test l = None -> filter (fun x => negb (test x)) l = l.
Proof.
  induction l as [|x r IH]; simpl; [reflexivity|].
  destruct (test x); [discriminate|]. simpl. intros H. now rewrite (IH H).
Qed.

Lemma held_none key l :
  (forall p, In p l -> Position.symbol p <> key) -> find (held key) l = None.
Proof.
  intros H. apply find_none_iff. intros p Hp. apply String.eqb_neq. now apply H.
Qed.

Lemma held_found key l e : find (held key) l = Some e -> Position.symbol e = key.
Proof. intros H. apply find_some in H as [_ H]. now apply String.eqb_eq. Qed.

(** ** [removePosition] *)

Lemma Index_removePosition_run symbol w :
  let kept := filter (fun p => negb (held (Index.formatStockCode symbol) p))
                     (portfolio w) in
  Index.removePosition symbol w =
    if writable w
    then (Return tt, set_portfolioFile (Json kept) (set_portfolio kept w))
    else (Throw EACCES, set_portfolio kept w).
Proof.
  unfold Index.removePosition. js_run. destruct (writable w); reflexivity.
Qed.

Lemma Part002_removePosition_found symbol w e :
  find (fun p => (Position.name p =? symbol) || (Position.symbol p =? symbol))
       (portfolio w) = Some e ->
  let kept := filter (fun p => negb (held (Part002.formatStockCode symbol) p))
                     (portfolio w) in
  Part002.removePosition symbol w =
    if writable w
    then (Return tt, set_portfolioFile (Json kept) (set_portfolio kept w))
    else (Throw EACCES, set_portfolio kept w).
Proof.
  intros F. unfold Part002.removePosition, bind, gets. rewrite F.
  js_run. destruct (writable w); reflexivity.
Qed.

Lemma Part002_removePosition_missed symbol w :
  find (fun p => (Position.name p =? symbol) || (Position.symbol p =? symbol))
       (portfolio w) = None ->
  Part002.removePosition symbol w =
    (Return tt, set_stderr (stderr w ++ ["Position not found"])%list w).
Proof.
  intros F. unfold Part002.removePosition, bind, gets. now rewrite F.
Qed.

(** C5, as the code has it.  When the formatted symbol matches no position,
    [removePosition] leaves the portfolio as it was, in both revisions.
    [index.js] reports nothing: it writes the unchanged portfolio back and
    returns normally when that write succeeds.  [part_002] prints "Position
    not found" and returns without writing when, moreover, the argument as
    typed equals no position's name and no stored symbol. *)
Theorem C5_remove_absent_symbol (w : World) (symbol : string) :
  ((forall p, In p (portfolio w) ->
      Position.symbol p <> Index.formatStockCode symbol) ->
   portfolio (snd (Index.removePosition symbol w)) = portfolio w /\
   stderr (snd (Index.removePosition symbol w)) = stderr w /\
   (writable w = true ->
      fst (Index.removePosition symbol w) = Return tt /\
      portfolioFile (snd (Index.removePosition symbol w)) = Json (portfolio w))) /\
  ((forall p, In p (portfolio w) ->
      Position.symbol p <> Part002.formatStockCode symbol) ->
   portfolio (snd (Part002.removePosition symbol w)) = portfolio w /\
   ((forall p, In p (portfolio w) ->
       Position.name p <> symbol /\ Position.symbol p <> symbol) ->
    fst (Part002.removePosition symbol w) = Return tt /\
    stderr (snd (Part002.removePosition symbol w))
      = (stderr w ++ ["Position not found"])%list /\
    portfolioFile (snd (Part002.removePosition symbol w)) = portfolioFile w)).
Proof.
  split; intros H; apply held_none in H.
  - rewrite Index_removePosition_run. cbv zeta.
    rewrite (filter_negb_none _ _ H).
    destruct (writable w); repeat split; intros; try reflexivity; discriminate.
  - split.
    + destruct (find (fun p => (Position.name p =? symbol)
                               || (Position.symbol p =? symbol)) (portfolio w))
        as [e|] eqn:F.
      * rewrite (Part002_removePosition_found _ _ _ F). cbv zeta.
        rewrite (filter_negb_none _ _ H). destruct (writable w); reflexivity.
      * rewrite (Part002_removePosition_missed _ _ F). reflexivity.
    + intros N.
      assert (F : find (fun p => (Position.name p =? symbol)
                                 || (Position.symbol p =? symbol)) (portfolio w)
                  = None).
      { apply find_none_iff. intros p Hp. destruct (N p Hp) as [Nn Ns].
        apply String.eqb_neq in Nn, Ns. now rewrite Nn, Ns. }
      rewrite (Part002_removePosition_missed _ _ F). repeat split.
Qed.

(** C5, witness: removing "601398" from a portfolio that holds 600000 only. *)
Lemma C5_remove_absent_witness :
  (portfolio (snd (Index.removePosition "601398" (holding [bank "600000.SH"])))
     = [bank "600000.SH"] /\
   fst (Index.removePosition "601398" (holding [bank "600000.SH"])) = Return tt) /\
  (portfolio (snd (Part002.removePosition "601398" (holding [bank "sh600000"])))
     = [bank "sh600000"] /\
   stderr (snd (Part002.removePosition "601398" (holding [bank "sh600000"])))
     = ["Position not found"]).
Proof.
  split.
  - destruct (C5_remove_absent_symbol (holding [bank "600000.SH"]) "601398")
      as [H _].
    destruct H as (Hp & _ & Hw).
    + intros p [<-|[]]. discriminate.
    + split; [exact Hp|]. exact (proj1 (Hw eq_refl)).
  - destruct (C5_remove_absent_symbol (holding [bank "sh600000"]) "601398")
      as [_ H].
    destruct H as (Hp & Hn).
    + intros p [<-|[]]. discriminate.
    + split; [exact Hp|]. destruct Hn as (_ & He & _).
      * intros p [<-|[]]. split; discriminate.
      * exact He.
Defined.

(** C5, counterexample: [index.js] removes a symbol that is not held without
    a word on the console; and [part_002] does the same when the argument,
    which formats to no held symbol, happens to be a position's name. *)
Lemma C5_counterexample :
  stderr (snd (Index.removePosition "601398" (holding [bank "600000.SH"]))) = [] /\
  stderr (snd (Part002.removePosition "PF Bank" (holding [bank "sh600000"]))) = [].
Proof. split; reflexivity. Qed.

(** When a name matches but the formatted name is no held symbol, nothing is
    removed: the filter of [part_002] looks for the formatted argument, not
    for the position that [find] returned. *)
Lemma Part002_remove_by_name_keeps w symbol e :
  find (fun p => (Position.name p =? symbol) || (Position.symbol p =? symbol))
       (portfolio w) = Some e ->
  (forall p, In p (portfolio w) ->
     Position.symbol p <> Part002.formatStockCode symbol) ->
  portfolio (snd (Part002.removePosition symbol w)) = portfolio w.
Proof.
  intros F H. apply held_none in H.
  rewrite (Part002_removePosition_found _ _ _ F). cbv zeta.
  rewrite (filter_negb_none _ _ H). destruct (writable w); reflexivity.
Qed.

(** C6, at the failing input: [part_002] holds one position, symbol
    "sh600000", name "PF Bank".  [removePosition("PF Bank")] finds it by
    name, then filters on "PF Bank" as a symbol: the position stays, the
    unchanged portfolio is written back, the call returns normally and
    the console stays silent. *)
Theorem C6_remove_by_name_keeps_position :
  let w' := snd (Part002.removePosition "PF Bank" (holding [bank "sh600000"])) in
  find (fun p => Position.name p =? "PF Bank") (portfolio (holding [bank "sh600000"]))
    = Some (bank "sh600000") /\
  fst (Part002.removePosition "PF Bank" (holding [bank "sh600000"])) = Return tt /\
  portfolio w' = [bank "sh600000"] /\
  portfolioFile w' = Json [bank "sh600000"] /\
  stderr w' = [].
Proof. repeat split. Qed.

(** ** [addPosition] *)

(** The symbol is new: the position is pushed and the array saved; then
    [part_002] returns it and [index.js] trips over its [return]. *)
Lemma addPosition_new r symbol shares purchasePrice name w :
  find (held (formatStockCode r symbol)) (portfolio w) = None ->
  let position :=
    {| Position.symbol := formatStockCode r symbol;
       Position.name := name;
       Position.shares := shares;
       Position.purchasePrice := purchasePrice;
       Position.dateAdded := now w;
       Position.dateModified := None |} in
  let grown := (portfolio w ++ [position])%list in
  addPosition r symbol shares purchasePrice name w =
    if writable w
    then (match r with
          | index_js => Throw (ReferenceError "position")
          | part_002 => Return position
          end,
          set_portfolioFile (Json grown) (set_portfolio grown w))
    else (Throw EACCES, set_portfolio grown w).
Proof.
  unfold held. intros F.
  destruct r; simpl in *;
    unfold Index.addPosition, Part002.addPosition, bind, gets;
    rewrite F; js_run; destruct (writable w); reflexivity.
Qed.

(** The symbol is held: the first position that carries it is updated in
    place, the array saved and the position returned. *)
Lemma addPosition_existing r symbol shares purchasePrice name w e :
  find (held (formatStockCode r symbol)) (portfolio w) = Some e ->
  let updated :=
    {| Position.symbol := Position.symbol e;
       Position.name := if name =? "" then Position.name e else name;
       Position.shares := (Position.shares e + shares)%float;
       Position.purchasePrice :=
         ((Position.shares e * Position.purchasePrice e
           + shares * purchasePrice)
          / (Position.shares e + shares))%float;
       Position.dateAdded := Position.dateAdded e;
       Position.dateModified := Some (now w) |} in
  let changed :=
    updateFirst (held (formatStockCode r symbol)) (fun _ => updated)
                (portfolio w) in
  addPosition r symbol shares purchasePrice name w =
    if writable w
    then (Return updated,
          set_portfolioFile (Json changed) (set_portfolio changed w))
    else (Throw EACCES, set_portfolio changed w).
Proof.
  unfold held. intros F.
  destruct r; simpl in *;
    unfold Index.addPosition, Part002.addPosition, bind, gets;
    rewrite F; js_run; destruct (writable w); reflexivity.
Qed.

(** The portfolio after a new symbol was added, whether or not the save
    went through. *)
Lemma addPosition_portfolio_new r symbol shares purchasePrice name w :
  find (held (formatStockCode r symbol)) (portfolio w) = None ->
  portfolio (snd (addPosition r symbol shares purchasePrice name w)) =
    (portfolio w ++
     [{| Position.symbol := formatStockCode r symbol;
         Position.name := name;
         Position.shares := shares;
         Position.purchasePrice := purchasePrice;
         Position.dateAdded := now w;
         Position.dateModified := None |}])%list.
Proof.
  intros F. rewrite (addPosition_new _ _ _ _ _ _ F). cbv zeta.
  destruct (writable w); reflexivity.
Qed.

(** C7, at the failing input: on a first run, [addPosition("600000", 100,
    10, "")] of [index.js] pushes the position with its creation time and
    saves the portfolio, and then ends in a [ReferenceError] on [position]
    instead of returning it; [part_002], at the same input, returns the
    position. *)
Theorem C7_index_add_new_raises :
  let position :=
    {| Position.symbol := "600000.SH"; Position.name := "";
       Position.shares := 100; Position.purchasePrice := 10;
       Position.dateAdded := now firstRun; Position.dateModified := None |} in
  fst (Index.addPosition "600000" 100 10 "" firstRun)
    = Throw (ReferenceError "position") /\
  portfolio (snd (Index.addPosition "600000" 100 10 "" firstRun)) = [position] /\
  portfolioFile (snd (Index.addPosition "600000" 100 10 "" firstRun))
    = Json [position] /\
  exists created,
    fst (Part002.addPosition "600000" 100 10 "" firstRun) = Return created /\
    portfolio (snd (Part002.addPosition "600000" 100 10 "" firstRun)) = [created].
Proof.
  repeat split. eexists. split; reflexivity.
Qed.

(** ** Numbers: a sum that cancels, and a division by it *)

Lemma SF_cancel (a : spec_float) :
  SF64add a (SFopp a)
  = match a with
    | S754_nan | S754_infinity _ => S754_nan
    | _ => S754_zero false
    end.
Proof.
  destruct a as [s|s| |s m e]; try (destruct s; reflexivity); try reflexivity.
  unfold SF64add, SFadd, SFopp. rewrite Z.min_id.
  unfold shl_align. rewrite Z.sub_diag. cbn [fst].
  replace (cond_Zopp s (Z.pos m) + cond_Zopp (negb s) (Z.pos m))%Z with 0%Z
    by (destruct s; simpl; now rewrite ?Z.pos_sub_diag).
  reflexivity.
Qed.

Lemma SF_div_nonfinite (x d : spec_float) :
  d = S754_nan \/ d = S754_zero false ->
  SFeqb (SF64div x d) (SF64div x d) = false \/
  SFeqb (SFabs (SF64div x d)) (S754_infinity false) = true.
Proof.
  intros [-> | ->].
  - left. destruct x as [s|s| |s m e]; reflexivity.
  - destruct x as [s|s| |s m e]; [left|right|left|right];
      try reflexivity; destruct s; reflexivity.
Qed.

Lemma Prim2SF_infinity : Prim2SF infinity = S754_infinity false.
Proof. reflexivity. Qed.

Lemma Prim2SF_zero : Prim2SF 0 = S754_zero false.
Proof. reflexivity. Qed.

(** [x / (s + -s)] is [NaN] or an infinity, whatever [x] and [s] are. *)
Lemma div_by_cancelled (x s : number) : is_finite (x / (s + - s)) = false.
Proof.
  unfold is_finite, is_nan, is_infinity.
  rewrite !eqb_spec, abs_spec, Prim2SF_infinity, div_spec, add_spec, opp_spec.
  destruct (SF_div_nonfinite (Prim2SF x) (SF64add (Prim2SF s) (SFopp (Prim2SF s))))
    as [H|H].
  - rewrite SF_cancel. destruct (Prim2SF s); auto.
  - now rewrite H.
  - rewrite H. now rewrite orb_true_r.
Qed.

(** A finite [s] and its opposite add up to [+0]. *)
Lemma cancelled (s : number) : is_finite s = true -> (s + - s)%float = 0%float.
Proof.
  intros F. apply Prim2SF_inj.
  rewrite add_spec, opp_spec, SF_cancel, Prim2SF_zero.
  unfold is_finite, is_nan, is_infinity in F.
  rewrite !eqb_spec, abs_spec, Prim2SF_infinity in F.
  destruct (Prim2SF s) as [b|b| |b m e]; try reflexivity;
    [destruct b|]; discriminate.
Qed.

(** ** Merging into a held position *)

Lemma addPosition_portfolio_existing r symbol shares purchasePrice name w e :
  find (held (formatStockCode r symbol)) (portfolio w) = Some e ->
  exists e',
    portfolio (snd (addPosition r symbol shares purchasePrice name w))
      = updateFirst (held (formatStockCode r symbol)) (fun _ => e') (portfolio w) /\
    find (held (formatStockCode r symbol))
         (portfolio (snd (addPosition r symbol shares purchasePrice name w)))
      = Some e' /\
    (writable w = true ->
       fst (addPosition r symbol shares purchasePrice name w) = Return e') /\
    Position.symbol e' = Position.symbol e /\
    Position.name e' = (if name =? "" then Position.name e else name) /\
    Position.shares e' = (Position.shares e + shares)%float /\
    Position.purchasePrice e' =
      ((Position.shares e * Position.purchasePrice e + shares * purchasePrice)
       / (Position.shares e + shares))%float /\
    Position.dateAdded e' = Position.dateAdded e /\
    Position.dateModified e' = Some (now w).
Proof.
  intros F. rewrite (addPosition_existing _ _ _ _ _ _ _ F). cbv zeta.
  match goal with
  | |- context [updateFirst _ (fun _ => ?u)] => set (updated := u)
  end.
  exists updated.
  assert (K : find (held (formatStockCode r symbol))
                (updateFirst (held (formatStockCode r symbol))
                   (fun _ => updated) (portfolio w)) = Some updated).
  { apply (find_updateFirst _ (fun _ => updated) _ e F).
    unfold held. simpl. apply String.eqb_eq. exact (held_found _ _ _ F). }
  destruct (writable w); simpl; repeat split; try exact K; intros; discriminate.
Qed.

(** C10: when [addPosition] merges into a held position, a non-empty [name]
    replaces the stored one and an empty [name] leaves it; the position's
    [symbol] and [dateAdded] stay as they were, and so does every other
    position of the portfolio. *)
Theorem C10_merge_keeps_identity r w symbol shares purchasePrice name e :
  find (held (formatStockCode r symbol)) (portfolio w) = Some e ->
  exists e',
    portfolio (snd (addPosition r symbol shares purchasePrice name w))
      = updateFirst (held (formatStockCode r symbol)) (fun _ => e') (portfolio w) /\
    (name = "" -> Position.name e' = Position.name e) /\
    (name <> "" -> Position.name e' = name) /\
    Position.symbol e' = Position.symbol e /\
    Position.dateAdded e' = Position.dateAdded e.
Proof.
  intros F.
  destruct (addPosition_portfolio_existing r symbol shares purchasePrice name w e F)
    as (e' & Hp & _ & _ & Hs & Hn & _ & _ & Hd & _).
  exists e'. repeat split; try assumption.
  - intros ->. exact Hn.
  - intros N. apply String.eqb_neq in N. now rewrite N in Hn.
Qed.

(** C10, witness: a second purchase of 600000 without a name, against a
    position named "PF Bank". *)
Lemma C10_merge_witness :
  exists e',
    portfolio (snd (addPosition part_002 "600000" 100 12 ""
                      (holding [bank "sh600000"])))
      = [e'] /\
    Position.name e' = "PF Bank" /\
    Position.symbol e' = "sh600000" /\
    Position.dateAdded e' = "2024-02-01T09:30:00.000Z".
Proof.
  destruct (C10_merge_keeps_identity part_002 (holding [bank "sh600000"])
              "600000" 100 12 "" (bank "sh600000") eq_refl)
    as (e' & Hp & Hn & _ & Hs & Hd).
  exists e'. repeat split; [exact Hp | exact (Hn eq_refl) | exact Hs | exact Hd].
Defined.

(** C1, as the code has it.  From a portfolio that holds no position for the
    formatted symbol, two [addPosition] of that symbol, [S1] shares at [P1]
    and then [S2] at [P2], leave the portfolio with exactly one position for
    the formatted symbol, appended to what was there, with
    [shares = S1 + S2] and
    [purchasePrice = (S1 * P1 + S2 * P2) / (S1 + S2)] (also when [S1 + S2]
    is zero, the quotient then being what the division gives). *)
Theorem C1_add_twice_merges r w symbol S1 P1 name1 S2 P2 name2 :
  (forall p, In p (portfolio w) -> Position.symbol p <> formatStockCode r symbol) ->
  exists e,
    portfolio (snd (addPosition r symbol S2 P2 name2
                      (snd (addPosition r symbol S1 P1 name1 w))))
      = (portfolio w ++ [e])%list /\
    filter (held (formatStockCode r symbol))
      (portfolio (snd (addPosition r symbol S2 P2 name2
                         (snd (addPosition r symbol S1 P1 name1 w)))))
      = [e] /\
    Position.symbol e = formatStockCode r symbol /\
    Position.shares e = (S1 + S2)%float /\
    Position.purchasePrice e = ((S1 * P1 + S2 * P2) / (S1 + S2))%float.
Proof.
  intros H. apply held_none in H.
  pose proof (addPosition_portfolio_new r symbol S1 P1 name1 w H) as E1.
  set (w1 := snd (addPosition r symbol S1 P1 name1 w)) in *.
  set (first :=
         {| Position.symbol := formatStockCode r symbol;
            Position.name := name1; Position.shares := S1;
            Position.purchasePrice := P1; Position.dateAdded := now w;
            Position.dateModified := None |}) in *.
  assert (K1 : held (formatStockCode r symbol) first = true)
    by (unfold held; simpl; apply String.eqb_refl).
  assert (F1 : find (held (formatStockCode r symbol)) (portfolio w1) = Some first).
  { rewrite E1, (find_app_none _ _ _ H). cbn [find]. now rewrite K1. }
  destruct (addPosition_portfolio_existing r symbol S2 P2 name2 w1 first F1)
    as (e & Hp & _ & _ & Hs & _ & Hsh & Hpp & _).
  exists e.
  assert (K : held (formatStockCode r symbol) e = true).
  { unfold held. rewrite Hs. simpl. apply String.eqb_refl. }
  rewrite Hp, E1, (updateFirst_app_none _ _ _ _ H). cbn [updateFirst].
  rewrite K1. repeat split; try assumption.
  rewrite filter_app, (filter_none _ _ H). cbn [filter app]. now rewrite K.
Qed.

(** C1, witness: the example of the specification, 100 shares of 600000 at
    10.00 and 100 more at 12.00 on a first run, gives 200 shares at 11.00. *)
Lemma C1_add_twice_witness :
  exists e,
    portfolio (snd (addPosition part_002 "600000" 100 12 ""
                      (snd (addPosition part_002 "600000" 100 10 "" firstRun))))
      = [e] /\
    Position.symbol e = "sh600000" /\
    Position.shares e = 200%float /\
    Position.purchasePrice e = 11%float.
Proof.
  destruct (C1_add_twice_merges part_002 firstRun "600000" 100 10 "" 100 12 "")
    as (e & Hp & _ & Hs & Hsh & Hpp).
  - intros p [].
  - exists e. repeat split; [exact Hp | exact Hs | exact Hsh | exact Hpp].
Defined.

(** C1, counterexample: when the portfolio already holds 50 shares of the
    symbol, the two purchases of 100 leave 250 shares, not 200. *)
Lemma C1_counterexample :
  exists e,
    portfolio (snd (addPosition index_js "600000" 100 12 ""
                      (snd (addPosition index_js "600000" 100 10 ""
                              (holding [bank "600000.SH"]))))) = [e] /\
    Position.shares e = 250%float /\
    (Position.shares e =? 100 + 100)%float = false.
Proof. eexists. repeat split. Qed.

(** C9: [addPosition] checks neither [shares] nor [purchasePrice], and the
    division of the merge is unguarded.  Adding the opposite of the held
    shares stores a [purchasePrice] that is not finite ([NaN] or an
    infinity); for finite held shares the stored share count, the divisor,
    is zero; and no error comes of it: where the save succeeds the call
    returns the position. *)
Theorem C9_opposite_shares_store_nonfinite r w symbol purchasePrice name e :
  find (held (formatStockCode r symbol)) (portfolio w) = Some e ->
  exists e',
    find (held (formatStockCode r symbol))
         (portfolio (snd (addPosition r symbol (- Position.shares e)
                            purchasePrice name w)))
      = Some e' /\
    is_finite (Position.purchasePrice e') = false /\
    (is_finite (Position.shares e) = true -> Position.shares e' = 0%float) /\
    (writable w = true ->
       fst (addPosition r symbol (- Position.shares e) purchasePrice name w)
         = Return e').
Proof.
  intros F.
  destruct (addPosition_portfolio_existing r symbol (- Position.shares e)
              purchasePrice name w e F)
    as (e' & _ & Hf & Hr & _ & _ & Hsh & Hpp & _).
  exists e'. repeat split; try assumption.
  - rewrite Hpp. apply div_by_cancelled.
  - intros Fin. rewrite Hsh. now apply cancelled.
Qed.

(** C9, witness: selling, as it were, the 50 held shares at 6.00. *)
Lemma C9_opposite_shares_witness :
  exists e',
    find (held "sh600000")
         (portfolio (snd (addPosition part_002 "600000" (-50) 6 ""
                            (holding [bank "sh600000"]))))
      = Some e' /\
    is_finite (Position.purchasePrice e') = false /\
    Position.shares e' = 0%float /\
    fst (addPosition part_002 "600000" (-50) 6 "" (holding [bank "sh600000"]))
      = Return e'.
Proof.
  destruct (C9_opposite_shares_store_nonfinite part_002 (holding [bank "sh600000"])
              "600000" 6 "" (bank "sh600000") eq_refl)
    as (e' & Hf & Hn & Hz & Hr).
  exists e'. repeat split;
    [exact Hf | exact Hn | exact (Hz eq_refl) | exact (Hr eq_refl)].
Defined.

(** ** Valuation *)

(** One fetch: it answers with the endpoint's next answer when the reload
    succeeds and with [null] when it does not, and leaves the endpoint and
    the ability to reload as they were. *)
Lemma getStockData_run fmt symbol w :
  exists w',
    Shared.getStockData fmt symbol w =
      (Return (if loads w then endpoint w (requests w) (fmt symbol) else None), w') /\
    endpoint w' = endpoint w /\
    loads w' = loads w /\
    requests w' = if loads w then S (requests w) else requests w.
Proof.
  unfold Shared.getStockData, tryCatch, bind, loadPortfolio, tryCatch, bind,
    readJson, loads.
  destruct (portfolioFile w) as [| |doc] eqn:E; simpl;
    unfold savePortfolio, bind, gets, writeJson; simpl;
    try (destruct (writable w) eqn:W; simpl);
    unfold Shared.request; simpl;
    try (destruct (endpoint w (requests w) (fmt symbol)); simpl);
    eexists; (split; [reflexivity|]); simpl; rewrite ?E, ?W; auto.
Qed.

Lemma fetched_ext fmt w w' n walk :
  endpoint w' = endpoint w -> loads w' = loads w ->
  fetched fmt w' n walk = fetched fmt w n walk.
Proof.
  intros He Hl. revert n.
  induction walk as [|p rest IH]; intros n; simpl; [reflexivity|].
  now rewrite He, Hl, IH.
Qed.

Lemma fetched_stuck fmt w n m walk :
  loads w = false -> fetched fmt w n walk = fetched fmt w m walk.
Proof.
  intros Hl. revert n m.
  induction walk as [|p rest IH]; intros n m; simpl; [reflexivity|].
  rewrite Hl. f_equal. apply IH.
Qed.

(** The loop, from any point of the walk: the rows of the quoted positions
    are appended in order and their values and costs added to the two
    running totals. *)
Lemma forOf_run fmt toFixed walk :
  forall w results totalValue totalCost,
  exists w',
    Shared.forOf fmt toFixed walk results totalValue totalCost w =
      (Return
         ((results ++ map (row toFixed)
                          (quoted (fetched fmt w (requests w) walk)))%list,
          fold_left PrimFloat.add
            (map value (quoted (fetched fmt w (requests w) walk))) totalValue,
          fold_left PrimFloat.add
            (map cost (quoted (fetched fmt w (requests w) walk))) totalCost),
       w').
Proof.
  induction walk as [|p rest IH]; intros w results totalValue totalCost.
  - exists w. simpl. unfold ret. now rewrite app_nil_r.
  - cbn [Shared.forOf]. unfold bind at 1.
    destruct (getStockData_run fmt (Position.symbol p) w)
      as (w1 & -> & He & Hl & Hr).
    assert (T : fetched fmt w1 (requests w1) rest
                = fetched fmt w (S (requests w)) rest).
    { rewrite (fetched_ext _ _ _ _ _ He Hl), Hr.
      destruct (loads w) eqn:L; [reflexivity|].
      now apply fetched_stuck. }
    cbn [fetched].
    destruct (if loads w then endpoint w (requests w) (fmt (Position.symbol p))
              else None) as [q|].
    + edestruct IH as (w' & ->). exists w'. rewrite T. cbn [quoted map fold_left].
      now rewrite <- app_assoc.
    + edestruct IH as (w' & ->). exists w'. rewrite T. reflexivity.
Qed.

(** C2, as the code has it.  The valuation returns normally, whatever the
    fetches give.  It has one row for each position whose fetch returned a
    quote, in portfolio order, with [value = shares * close],
    [profit = value - cost] and [return = profit / cost * 100] for
    [cost = shares * purchasePrice], each shown with two decimals.  The
    summary's [totalValue] and [totalCost] are the sums, added from the left,
    of the values and of the costs of those positions, and [totalProfit] is
    the difference [totalValue - totalCost], each shown with two decimals.
    A position whose fetch fails has no row and enters no total. *)
Theorem C2_valuation_of_quoted fmt toFixed w :
  exists v w',
    Shared.calculatePortfolio fmt toFixed w = (Return v, w') /\
    positions v
      = map (row toFixed) (quoted (fetched fmt w (requests w) (portfolio w))) /\
    Summary.totalValue (summary v)
      = toFixed (total (map value
                   (quoted (fetched fmt w (requests w) (portfolio w))))) 2 /\
    Summary.totalCost (summary v)
      = toFixed (total (map cost
                   (quoted (fetched fmt w (requests w) (portfolio w))))) 2 /\
    Summary.totalProfit (summary v)
      = toFixed (total (map value
                   (quoted (fetched fmt w (requests w) (portfolio w))))
                 - total (map cost
                     (quoted (fetched fmt w (requests w) (portfolio w)))))%float 2.
Proof.
  unfold Shared.calculatePortfolio, bind, gets.
  destruct (forOf_run fmt toFixed (portfolio w) w [] 0%float 0%float)
    as (w' & ->).
  eexists. exists w'. split; [reflexivity|]. simpl. repeat split.
Qed.

(** C2, counterexample.  Three positions, the second of which gets no
    quote.  The two quoted ones have profits 8.371 - 4.885 and
    8.221 - 3.462, shown as 3.49 and 4.76; their sum is 8.245000000000001,
    shown as 8.25.  The summary's [totalProfit] is 16.592 - 8.347 as
    computed, 8.2449999999999992, shown as 8.24. *)
Lemma C2_counterexample :
  exists v w',
    Index.calculatePortfolio Number_toFixed tradingDay = (Return v, w') /\
    map ResultRow.symbol (positions v) = ["600000.SH"; "000001.SZ"] /\
    map ResultRow.profit (positions v) = ["3.49"; "4.76"] /\
    Summary.totalProfit (summary v) = "8.24" /\
    Number_toFixed
      (total (map profit
         (quoted (fetched Index.formatStockCode tradingDay 0
                    (portfolio tradingDay))))) 2 = "8.25".
Proof.
  eexists. eexists. split; [vm_compute; reflexivity|].
  repeat split; vm_compute; reflexivity.
Qed.

(** The example of the specification: 100 shares bought at 10.00 and
    closing at 11.00 are worth 1100.00 against a cost of 1000.00, a profit of
    100.00 and a return of 10.00%. *)
Example valuation_example :
  exists w',
    Index.calculatePortfolio Number_toFixed exampleDay =
      (Return
         {| positions :=
              [{| ResultRow.symbol := "600000.SH"; ResultRow.name := "";
                  ResultRow.shares := 100;
                  ResultRow.purchasePrice := "10.00"; ResultRow.currentPrice := "11.00";
                  ResultRow.todayChange := "0.00%"; ResultRow.value := "1100.00";
                  ResultRow.profit := "100.00"; ResultRow.return_ := "10.00%" |}];
            summary :=
              {| Summary.totalValue := "1100.00";
                 Summary.totalCost := "1000.00";
                 Summary.totalProfit := "100.00";
                 Summary.totalReturn := "10.00" |} |}, w').
Proof. eexists. vm_compute. reflexivity. Qed.

(** * Further properties *)

(** ** Start-up *)

Lemma loadPortfolio_run w :
  loadPortfolio w =
    match portfolioFile w with
    | Json p => (Return tt, set_portfolio p w)
    | _ =>
        if writable w
        then (Return tt, set_portfolioFile (Json []) (set_portfolio [] w))
        else (Throw EACCES, set_portfolio [] w)
    end.
Proof.
  unfold loadPortfolio. js_run.
  destruct (portfolioFile w); simpl; try reflexivity;
    destruct (writable w); reflexivity.
Qed.

(** Splits a world into its fields and the two files and the write flag
    into their cases. *)
Ltac by_files w :=
  destruct w as [c p cf pf wr nw se ep rq];
  destruct cf, pf, wr; simpl in *.

(** X1: [initialize] never throws, whatever [mkdir] and the two loads do:
    every error ends in its [catch]. *)
Theorem X1_initialize_returns (mkdir : option Error) (w : World) :
  fst (initialize mkdir w) = Return tt.
Proof. destruct mkdir; by_files w; reflexivity. Qed.

(** X2: a start-up in which the directory can be made and each file either
    parses or can be rewritten logs nothing and leaves memory and disk in
    agreement, on the configuration and on the portfolio. *)
Theorem X2_initialize_mirrors_disk (w : World) :
  configLoads w = true -> loads w = true ->
  configFile (snd (initialize None w)) = Json (config (snd (initialize None w))) /\
  synced (snd (initialize None w)) /\
  portfolio (snd (initialize None w)) = reloaded w /\
  stderr (snd (initialize None w)) = stderr w.
Proof.
  unfold configLoads, loads, synced, reloaded.
  by_files w; intros C L; try discriminate; repeat split.
Qed.

(** X2, witness: the first run. *)
Lemma X2_initialize_witness :
  configFile (snd (initialize None firstRun)) = Json {| apiKey := "" |} /\
  portfolioFile (snd (initialize None firstRun)) = Json [] /\
  stderr (snd (initialize None firstRun)) = [].
Proof.
  destruct (X2_initialize_mirrors_disk firstRun eq_refl eq_refl)
    as (Hc & Hs & _ & He).
  exact (conj Hc (conj Hs He)).
Defined.

(** X3: when the directory cannot be made, or the configuration cannot be
    loaded, the portfolio is not loaded at all: the field and the file stay as
    they were, even if the file is in order, and one line is logged. *)
Theorem X3_initialize_skips_portfolio (mkdir : option Error) (w : World) :
  mkdir <> None \/ configLoads w = false ->
  portfolio (snd (initialize mkdir w)) = portfolio w /\
  portfolioFile (snd (initialize mkdir w)) = portfolioFile w /\
  exists error,
    stderr (snd (initialize mkdir w))
      = (stderr w ++ [("Error initializing: " ++ message error)%string])%list.
Proof.
  unfold configLoads. destruct mkdir as [e|].
  - intros _. by_files w; repeat split; now exists e.
  - intros [H|H]; [congruence|].
    by_files w; try discriminate; repeat split; now exists EACCES.
Qed.

(** X3, witness: a read-only directory without configuration but with a
    portfolio file (here one that does not parse). *)
Lemma X3_initialize_witness :
  portfolio (snd (initialize None readOnlyRun)) = [] /\
  portfolioFile (snd (initialize None readOnlyRun)) = Corrupt /\
  exists error,
    stderr (snd (initialize None readOnlyRun))
      = ["Error initializing: " ++ message error].
Proof.
  exact (X3_initialize_skips_portfolio None readOnlyRun (or_intror eq_refl)).
Defined.

(** X4: a reload that returns normally leaves memory and disk in agreement,
    with the document of the disk in memory (the empty portfolio, written
    back, when the file was missing or did not parse); and reloading once
    more changes nothing. *)
Theorem X4_loadPortfolio_settles (w : World) :
  loads w = true ->
  fst (loadPortfolio w) = Return tt /\
  synced (snd (loadPortfolio w)) /\
  portfolio (snd (loadPortfolio w)) = reloaded w /\
  loadPortfolio (snd (loadPortfolio w)) = (Return tt, snd (loadPortfolio w)).
Proof.
  unfold loads, synced, reloaded.
  by_files w; intros L; try discriminate; repeat split.
Qed.

(** X4, witness: the first run, where the file is missing. *)
Lemma X4_loadPortfolio_witness :
  fst (loadPortfolio firstRun) = Return tt /\
  portfolioFile (snd (loadPortfolio firstRun)) = Json [] /\
  portfolio (snd (loadPortfolio firstRun)) = [] /\
  loadPortfolio (snd (loadPortfolio firstRun))
    = (Return tt, snd (loadPortfolio firstRun)).
Proof. exact (X4_loadPortfolio_settles firstRun eq_refl). Defined.

(** ** Fetching and the state a valuation leaves *)

(** Everything one fetch does. *)
Lemma getStockData_effect fmt symbol w :
  let answer :=
    if loads w then endpoint w (requests w) (fmt symbol) else None in
  fst (Shared.getStockData fmt symbol w) = Return answer /\
  portfolio (snd (Shared.getStockData fmt symbol w)) = reloaded w /\
  reloaded (snd (Shared.getStockData fmt symbol w)) = reloaded w /\
  loads (snd (Shared.getStockData fmt symbol w)) = loads w /\
  endpoint (snd (Shared.getStockData fmt symbol w)) = endpoint w /\
  requests (snd (Shared.getStockData fmt symbol w))
    = (if loads w then S (requests w) else requests w) /\
  portfolioFile (snd (Shared.getStockData fmt symbol w))
    = (if loads w then Json (reloaded w) else portfolioFile w) /\
  match answer with
  | Some _ => stderr (snd (Shared.getStockData fmt symbol w)) = stderr w
  | None =>
      exists line,
        complains symbol line /\
        stderr (snd (Shared.getStockData fmt symbol w))
          = (stderr w ++ [line])%list
  end.
Proof.
  unfold loads, reloaded, complains.
  destruct w as [c p cf pf wr nw se ep rq]; simpl.
  destruct pf, wr; simpl;
    unfold Shared.getStockData, Shared.request, loadPortfolio; js_run;
    try (destruct (ep rq (fmt symbol)); simpl);
    repeat split;
    refine (ex_intro _ _ (conj _ eq_refl));
    first [now exists EACCES | now exists RequestFailed].
Qed.

Lemma quoted_unquoted_length l :
  List.length (quoted l) + List.length (unquoted l) = List.length l.
Proof.
  induction l as [|[p [q|]] r IH]; simpl; lia.
Qed.

Lemma fetched_length fmt w n walk :
  List.length (fetched fmt w n walk) = List.length walk.
Proof.
  revert n. induction walk as [|p r IH]; intros n; simpl; [reflexivity|].
  now rewrite IH.
Qed.

Lemma fetched_stays fmt w w' walk :
  endpoint w' = endpoint w -> loads w' = loads w ->
  requests w' = (if loads w then S (requests w) else requests w) ->
  fetched fmt w' (requests w') walk = fetched fmt w (S (requests w)) walk.
Proof.
  intros He Hl Hr. rewrite (fetched_ext _ _ _ _ _ He Hl), Hr.
  destruct (loads w) eqn:L; [reflexivity|]. now apply fetched_stuck.
Qed.

(** The world the loop leaves. *)
Lemma forOf_effect fmt toFixed walk :
  forall w results totalValue totalCost,
  let w' := snd (Shared.forOf fmt toFixed walk results totalValue totalCost w) in
  loads w' = loads w /\
  endpoint w' = endpoint w /\
  reloaded w' = reloaded w /\
  requests w' = (if loads w then requests w + List.length walk else requests w) /\
  (walk <> [] ->
     portfolio w' = reloaded w /\
     portfolioFile w' = if loads w then Json (reloaded w) else portfolioFile w) /\
  exists lines,
    stderr w' = (stderr w ++ lines)%list /\
    Forall2 (fun p line => complains (Position.symbol p) line)
      (unquoted (fetched fmt w (requests w) walk)) lines.
Proof.
  induction walk as [|p rest IH]; intros w results totalValue totalCost.
  - simpl. do 3 (split; [reflexivity|]).
    split; [destruct (loads w); lia|].
    split; [intros H; now contradiction H|].
    exists []. split; [now rewrite app_nil_r|constructor].
  - cbn [Shared.forOf]. unfold bind.
    destruct (getStockData_effect fmt (Position.symbol p) w)
      as (Ha & Hp & Hrl & Hl & He & Hr & Hf & Hs).
    destruct (Shared.getStockData fmt (Position.symbol p) w) as [o w1] eqn:G.
    simpl in Ha, Hp, Hrl, Hl, He, Hr, Hf, Hs. subst o.
    pose proof (fetched_stays fmt w w1 rest He Hl Hr) as T.
    assert (K : forall results' tv tc,
              let w' := snd (Shared.forOf fmt toFixed rest results' tv tc w1) in
              loads w' = loads w /\
              endpoint w' = endpoint w /\
              reloaded w' = reloaded w /\
              requests w' = (if loads w then requests w + S (List.length rest)
                             else requests w) /\
              (portfolio w' = reloaded w /\
               portfolioFile w' = if loads w then Json (reloaded w)
                                  else portfolioFile w) /\
              exists lines,
                stderr w' = (stderr w1 ++ lines)%list /\
                Forall2 (fun p line => complains (Position.symbol p) line)
                  (unquoted (fetched fmt w (S (requests w)) rest)) lines).
    { intros results' tv tc.
      destruct (IH w1 results' tv tc) as (I1 & I2 & I3 & I4 & I5 & lines & I6 & I7).
      cbv zeta. rewrite I1, I2, I3, I4, Hl, He, Hrl, Hr.
      repeat split.
      - destruct (loads w); lia.
      - destruct rest as [|p' rest'].
        + simpl. exact Hp.
        + destruct I5 as [I5 _]; [discriminate|]. now rewrite I5.
      - destruct rest as [|p' rest'].
        + simpl. rewrite Hf. destruct (loads w); reflexivity.
        + destruct I5 as [_ I5]; [discriminate|]. rewrite I5, Hl, Hrl, Hf.
          destruct (loads w); reflexivity.
      - exists lines. split; [exact I6|]. now rewrite <- T. }
    cbn [fetched unquoted List.length]. cbv zeta.
    destruct (if loads w then endpoint w (requests w) (fmt (Position.symbol p))
              else None) as [q|]; cbv beta iota;
      match goal with
      | |- context [Shared.forOf fmt toFixed rest ?r ?a ?b w1] =>
          destruct (K r a b) as (K1 & K2 & K3 & K4 & K5 & lines & K6 & K7)
      end.
    + split; [exact K1|]. split; [exact K2|]. split; [exact K3|].
      split; [exact K4|]. split; [intros _; exact K5|].
      exists lines. split; [now rewrite K6, Hs|exact K7].
    + destruct Hs as (line & Hc & Hs).
      split; [exact K1|]. split; [exact K2|]. split; [exact K3|].
      split; [exact K4|]. split; [intros _; exact K5|].
      exists (line :: lines). split.
      * rewrite K6, Hs, <- app_assoc. reflexivity.
      * now constructor.
Qed.

(** X5: [getStockData] never throws.  It answers [null] exactly when the
    reload before the request fails or the endpoint has no quote; then it
    logs one line that names the symbol as it was passed, and otherwise it
    logs nothing. *)
Theorem X5_getStockData_answers fmt symbol w :
  exists answer,
    fst (Shared.getStockData fmt symbol w) = Return answer /\
    (answer = None <->
       loads w = false \/ endpoint w (requests w) (fmt symbol) = None) /\
    match answer with
    | Some _ => stderr (snd (Shared.getStockData fmt symbol w)) = stderr w
    | None =>
        exists line,
          complains symbol line /\
          stderr (snd (Shared.getStockData fmt symbol w))
            = (stderr w ++ [line])%list
    end.
Proof.
  destruct (getStockData_effect fmt symbol w) as (Ha & _ & _ & _ & _ & _ & _ & Hs).
  cbv zeta in Ha, Hs. eexists. split; [exact Ha|]. split; [|exact Hs].
  destruct (loads w).
  - split; [now right|]. intros [H|H]; [discriminate|exact H].
  - split; [now left|reflexivity].
Qed.

(** X6: a valuation accounts for every position and sends one request for
    each.  Each position gets either a row or one logged line that names its
    symbol, in portfolio order; the request count grows by the number of
    positions, or not at all when the portfolio file can neither be read nor
    rewritten. *)
Theorem X6_valuation_accounts fmt toFixed w :
  exists v w' lines,
    Shared.calculatePortfolio fmt toFixed w = (Return v, w') /\
    stderr w' = (stderr w ++ lines)%list /\
    Forall2 (fun p line => complains (Position.symbol p) line)
      (unquoted (fetched fmt w (requests w) (portfolio w))) lines /\
    List.length (positions v) + List.length lines = List.length (portfolio w) /\
    requests w' = (if loads w then requests w + List.length (portfolio w)
                   else requests w).
Proof.
  unfold Shared.calculatePortfolio, bind, gets.
  destruct (forOf_effect fmt toFixed (portfolio w) w [] 0%float 0%float)
    as (_ & _ & _ & Hr & _ & lines & Hs & Hc).
  destruct (forOf_run fmt toFixed (portfolio w) w [] 0%float 0%float)
    as (w' & E).
  rewrite E in Hr, Hs. rewrite E. simpl in Hr, Hs.
  eexists. exists w', lines. split; [reflexivity|].
  split; [exact Hs|]. split; [exact Hc|]. split; [|exact Hr].
  simpl. rewrite length_map, <- (Forall2_length Hc).
  rewrite quoted_unquoted_length. apply fetched_length.
Qed.

(** X7: what a valuation leaves in memory.  When memory and disk agree, the
    portfolio and its file are as before.  In general, after walking a
    non-empty portfolio the field holds what a reload finds on disk (the
    empty portfolio when the file does not parse), whatever was in memory
    before. *)
Theorem X7_valuation_reloads fmt toFixed w :
  (synced w ->
     portfolio (snd (Shared.calculatePortfolio fmt toFixed w)) = portfolio w /\
     portfolioFile (snd (Shared.calculatePortfolio fmt toFixed w))
       = portfolioFile w) /\
  (portfolio w <> [] ->
     portfolio (snd (Shared.calculatePortfolio fmt toFixed w)) = reloaded w).
Proof.
  assert (E : snd (Shared.calculatePortfolio fmt toFixed w)
              = snd (Shared.forOf fmt toFixed (portfolio w) [] 0%float 0%float w)).
  { unfold Shared.calculatePortfolio, bind, gets.
    destruct (forOf_run fmt toFixed (portfolio w) w [] 0%float 0%float)
      as (w' & ->). reflexivity. }
  rewrite E.
  destruct (forOf_effect fmt toFixed (portfolio w) w [] 0%float 0%float)
    as (_ & _ & _ & _ & Hp & _).
  split.
  - unfold synced. intros S. destruct (portfolio w) as [|p rest] eqn:P.
    + simpl. now rewrite P.
    + destruct Hp as [Hp Hf]; [discriminate|].
      unfold loads, reloaded in *. rewrite S in *. now rewrite Hp, Hf.
  - intros N. now destruct (Hp N).
Qed.

(** X7, witness: the trading day, where memory and disk agree. *)
Lemma X7_valuation_witness :
  portfolio (snd (Index.calculatePortfolio Number_toFixed tradingDay))
    = portfolio tradingDay /\
  portfolioFile (snd (Index.calculatePortfolio Number_toFixed tradingDay))
    = portfolioFile tradingDay /\
  portfolio (snd (Index.calculatePortfolio Number_toFixed tradingDay))
    = reloaded tradingDay.
Proof.
  destruct (X7_valuation_reloads Index.formatStockCode Number_toFixed tradingDay)
    as [Hs Hn].
  destruct (Hs eq_refl) as [H1 H2].
  exact (conj H1 (conj H2 (Hn ltac:(discriminate)))).
Defined.

Lemma fetched_unloaded fmt w n walk :
  loads w = false -> quoted (fetched fmt w n walk) = [].
Proof.
  intros L. revert n. induction walk as [|p r IH]; intros n; simpl;
    [reflexivity|]. rewrite L. apply IH.
Qed.

(** X8: a valuation with nothing to value, because the portfolio is empty or
    because the portfolio file can neither be read nor rewritten, shows no
    row, totals of 0.00, and a total return of NaN (zero divided by zero). *)
Theorem X8_valuation_of_nothing fmt w :
  portfolio w = [] \/ loads w = false ->
  fst (Shared.calculatePortfolio fmt Number_toFixed w) =
    Return {| positions := [];
              summary := {| Summary.totalValue := "0.00";
                            Summary.totalCost := "0.00";
                            Summary.totalProfit := "0.00";
                            Summary.totalReturn := "NaN" |} |}.
Proof.
  intros H.
  assert (Q : quoted (fetched fmt w (requests w) (portfolio w)) = []).
  { destruct H as [-> | L]; [reflexivity|now apply fetched_unloaded]. }
  unfold Shared.calculatePortfolio, bind, gets.
  destruct (forOf_run fmt Number_toFixed (portfolio w) w [] 0%float 0%float)
    as (w' & ->). rewrite Q. reflexivity.
Qed.

(** X8, witness: the first run, with its empty portfolio. *)
Lemma X8_valuation_witness :
  fst (Part002.calculatePortfolio Number_toFixed firstRun) =
    Return {| positions := [];
              summary := {| Summary.totalValue := "0.00";
                            Summary.totalCost := "0.00";
                            Summary.totalProfit := "0.00";
                            Summary.totalReturn := "NaN" |} |}.
Proof.
  exact (X8_valuation_of_nothing Part002.formatStockCode firstRun
           (or_introl eq_refl)).
Defined.

(** ** The portfolio as a keyed collection *)

Lemma held_none_iff key l :
  find (held key) l = None <-> ~ In key (map Position.symbol l).
Proof.
  rewrite find_none_iff. split.
  - intros H I. apply in_map_iff in I as (p & E & Hp).
    specialize (H p Hp). unfold held in H. rewrite E, String.eqb_refl in H.
    discriminate.
  - intros H p Hp. unfold held. apply String.eqb_neq. intros E.
    apply H. rewrite <- E. now apply in_map.
Qed.

Lemma symbols_updateFirst key u l :
  Position.symbol u = key ->
  map Position.symbol (updateFirst (held key) (fun _ => u) l)
    = map Position.symbol l.
Proof.
  intros U. induction l as [|x r IH]; simpl; [reflexivity|].
  destruct (held key x) eqn:H; simpl.
  - unfold held in H. apply String.eqb_eq in H. now rewrite U, H.
  - now rewrite IH.
Qed.

Lemma symbols_filter (test : Position.t -> bool) l :
  distinctSymbols l -> distinctSymbols (filter test l).
Proof.
  unfold distinctSymbols. induction l as [|x r IH]; simpl; [auto|].
  intros D. inversion D as [|? ? N D']; subst.
  destruct (test x); simpl; [|now apply IH].
  constructor; [|now apply IH].
  intros I. apply N. apply in_map_iff in I as (p & E & Hp).
  apply filter_In in Hp as [Hp _]. rewrite <- E. now apply in_map.
Qed.

(** What each [removePosition] leaves in memory. *)
Lemma removePosition_portfolio r symbol w :
  portfolio (snd (removePosition r symbol w))
    = filter (fun p => negb (held (formatStockCode r symbol) p)) (portfolio w)
  \/ portfolio (snd (removePosition r symbol w)) = portfolio w.
Proof.
  destruct r; simpl.
  - left. rewrite Index_removePosition_run. cbv zeta.
    destruct (writable w); reflexivity.
  - destruct (find (fun p => (Position.name p =? symbol)
                             || (Position.symbol p =? symbol)) (portfolio w))
      as [e|] eqn:F.
    + left. rewrite (Part002_removePosition_found _ _ _ F). cbv zeta.
      destruct (writable w); reflexivity.
    + right. now rewrite (Part002_removePosition_missed _ _ F).
Qed.

(** What each [addPosition] leaves in memory. *)
Lemma addPosition_portfolio r symbol shares purchasePrice name w :
  match find (held (formatStockCode r symbol)) (portfolio w) with
  | None =>
      exists position,
        Position.symbol position = formatStockCode r symbol /\
        portfolio (snd (addPosition r symbol shares purchasePrice name w))
          = (portfolio w ++ [position])%list
  | Some e =>
      exists updated,
        Position.symbol updated = formatStockCode r symbol /\
        portfolio (snd (addPosition r symbol shares purchasePrice name w))
          = updateFirst (held (formatStockCode r symbol)) (fun _ => updated)
              (portfolio w)
  end.
Proof.
  destruct (find (held (formatStockCode r symbol)) (portfolio w)) as [e|] eqn:F.
  - destruct (addPosition_portfolio_existing r symbol shares purchasePrice name
                w e F) as (u & Hp & _ & _ & Hs & _).
    exists u. split; [|exact Hp]. rewrite Hs. exact (held_found _ _ _ F).
  - eexists. split; [|exact (addPosition_portfolio_new _ _ _ _ _ _ F)].
    reflexivity.
Qed.

(** X9: no operation of the engine creates a second position for a symbol.
    If the symbols of the portfolio are pairwise distinct, they still are
    after [addPosition] and after [removePosition], in both revisions and
    whether or not the save that follows succeeds. *)
Theorem X9_symbols_stay_distinct r w symbol shares purchasePrice name :
  distinctSymbols (portfolio w) ->
  distinctSymbols
    (portfolio (snd (addPosition r symbol shares purchasePrice name w))) /\
  distinctSymbols (portfolio (snd (removePosition r symbol w))).
Proof.
  intros D. split.
  - pose proof (addPosition_portfolio r symbol shares purchasePrice name w) as A.
    destruct (find (held (formatStockCode r symbol)) (portfolio w)) as [e|] eqn:F.
    + destruct A as (u & Hs & ->). unfold distinctSymbols.
      now rewrite (symbols_updateFirst _ _ _ Hs).
    + destruct A as (q & Hs & ->). unfold distinctSymbols in *.
      rewrite map_app. simpl. apply NoDup_app; [exact D| |].
      * constructor; [intros []|constructor].
      * intros x Hx [<-|[]]. rewrite Hs in Hx.
        now apply (proj1 (held_none_iff _ _) F).
  - destruct (removePosition_portfolio r symbol w) as [-> | ->];
      [now apply symbols_filter|exact D].
Qed.

(** X9, witness: a portfolio of one position. *)
Lemma X9_symbols_witness :
  distinctSymbols
    (portfolio (snd (addPosition index_js "600000" 100 12 ""
                       (holding [bank "600000.SH"])))) /\
  distinctSymbols
    (portfolio (snd (removePosition index_js "600000"
                       (holding [bank "600000.SH"])))).
Proof.
  apply (X9_symbols_stay_distinct index_js (holding [bank "600000.SH"])).
  repeat constructor. intros [].
Defined.

Lemma find_held_app key l l' :
  find (held key) (l ++ l')%list
    = match find (held key) l with
      | Some e => Some e
      | None => find (held key) l'
      end.
Proof.
  induction l as [|x r IH]; simpl; [reflexivity|].
  destruct (held key x); [reflexivity|exact IH].
Qed.

Lemma find_held_updateFirst_other key k u l :
  key <> k -> Position.symbol u = k ->
  find (held key) (updateFirst (held k) (fun _ => u) l) = find (held key) l.
Proof.
  intros N U. induction l as [|x r IH]; simpl; [reflexivity|].
  destruct (held k x) eqn:H; simpl.
  - unfold held in *. apply String.eqb_eq in H.
    rewrite U, H. apply not_eq_sym, String.eqb_neq in N. now rewrite N.
  - now rewrite IH.
Qed.

(** X10: [addPosition] touches one symbol only.  Looking up any other
    symbol gives the same position before and after, and the portfolio grows
    by one position when the symbol was new and keeps its length when it was
    held. *)
Theorem X10_add_leaves_others r w symbol shares purchasePrice name :
  (forall key, key <> formatStockCode r symbol ->
     find (held key)
          (portfolio (snd (addPosition r symbol shares purchasePrice name w)))
       = find (held key) (portfolio w)) /\
  List.length (portfolio (snd (addPosition r symbol shares purchasePrice name w)))
    = match find (held (formatStockCode r symbol)) (portfolio w) with
      | Some _ => List.length (portfolio w)
      | None => S (List.length (portfolio w))
      end.
Proof.
  pose proof (addPosition_portfolio r symbol shares purchasePrice name w) as A.
  destruct (find (held (formatStockCode r symbol)) (portfolio w)) as [e|] eqn:F.
  - destruct A as (u & Hs & ->). split.
    + intros key N. now apply find_held_updateFirst_other.
    + clear. induction (portfolio w) as [|x l IH]; simpl; [reflexivity|].
      destruct (held (formatStockCode r symbol) x); simpl; [reflexivity|].
      now rewrite IH.
  - destruct A as (q & Hs & ->). split.
    + intros key N. rewrite find_held_app.
      destruct (find (held key) (portfolio w)); [reflexivity|]. simpl.
      unfold held. rewrite Hs. apply not_eq_sym, String.eqb_neq in N.
      now rewrite N.
    + rewrite length_app. simpl. lia.
Qed.

(** X10, witness: buying 000001 next to a position in 600000. *)
Lemma X10_add_witness :
  find (held "sh600000")
       (portfolio (snd (addPosition part_002 "000001" 100 12 ""
                          (holding [bank "sh600000"]))))
    = Some (bank "sh600000").
Proof.
  exact (proj1 (X10_add_leaves_others part_002 (holding [bank "sh600000"])
                  "000001" 100 12 "")
               "sh600000" ltac:(discriminate)).
Defined.

(** ** Removing *)

Lemma find_held_removed key l :
  find (held key) (filter (fun p => negb (held key p)) l) = None.
Proof.
  apply find_none_iff. intros p Hp. apply filter_In in Hp as [_ Hp].
  now apply negb_true_iff.
Qed.

Lemma find_held_filter_other key k l :
  key <> k ->
  find (held key) (filter (fun p => negb (held k p)) l) = find (held key) l.
Proof.
  intros N. induction l as [|x r IH]; simpl; [reflexivity|].
  destruct (held k x) eqn:H; simpl.
  - unfold held in *. apply String.eqb_eq in H. rewrite H.
    apply not_eq_sym, String.eqb_neq in N. now rewrite N.
  - now rewrite IH.
Qed.

Lemma filter_shorter key l e :
  find (held key) l = Some e ->
  List.length (filter (fun p => negb (held key p)) l) < List.length l.
Proof.
  induction l as [|x r IH]; simpl; [discriminate|].
  destruct (held key x) eqn:H; simpl.
  - intros _. pose proof (filter_length_le (fun p => negb (held key p)) r). lia.
  - intros F. specialize (IH F). lia.
Qed.

Lemma filter_one_shorter key l e :
  distinctSymbols l -> find (held key) l = Some e ->
  S (List.length (filter (fun p => negb (held key p)) l)) = List.length l.
Proof.
  unfold distinctSymbols. induction l as [|x r IH]; simpl; [discriminate|].
  intros D. inversion D as [|? ? N D']; subst.
  destruct (held key x) eqn:H; simpl.
  - intros _. unfold held in H. apply String.eqb_eq in H. rewrite H in N.
    apply held_none_iff in N. now rewrite (filter_negb_none _ _ N).
  - intros F. now rewrite (IH D' F).
Qed.

(** X11: [removePosition] of [index.js].  Afterwards the formatted symbol
    resolves to nothing and every other symbol resolves as before.  If the
    symbol was held the portfolio is strictly shorter, by exactly one
    position when symbols are pairwise distinct. *)
Theorem X11_index_remove_unresolves (w : World) (symbol : string) :
  find (held (Index.formatStockCode symbol))
       (portfolio (snd (Index.removePosition symbol w))) = None /\
  (forall key, key <> Index.formatStockCode symbol ->
     find (held key) (portfolio (snd (Index.removePosition symbol w)))
       = find (held key) (portfolio w)) /\
  (forall e,
     find (held (Index.formatStockCode symbol)) (portfolio w) = Some e ->
     List.length (portfolio (snd (Index.removePosition symbol w)))
       < List.length (portfolio w) /\
     (distinctSymbols (portfolio w) ->
      S (List.length (portfolio (snd (Index.removePosition symbol w))))
        = List.length (portfolio w))).
Proof.
  assert (E : portfolio (snd (Index.removePosition symbol w))
              = filter (fun p => negb (held (Index.formatStockCode symbol) p))
                       (portfolio w)).
  { rewrite Index_removePosition_run. cbv zeta.
    destruct (writable w); reflexivity. }
  rewrite E. split; [apply find_held_removed|]. split.
  - intros key N. now apply find_held_filter_other.
  - intros e F. split; [exact (filter_shorter _ _ _ F)|].
    intros D. exact (filter_one_shorter _ _ _ D F).
Qed.

(** X11, witness: removing 600000 from a portfolio that holds it. *)
Lemma X11_index_remove_witness :
  List.length (portfolio (snd (Index.removePosition "600000"
                                 (holding [bank "600000.SH"]))))
    < List.length (portfolio (holding [bank "600000.SH"])) /\
  S (List.length (portfolio (snd (Index.removePosition "600000"
                                    (holding [bank "600000.SH"])))))
    = List.length (portfolio (holding [bank "600000.SH"])).
Proof.
  destruct (X11_index_remove_unresolves (holding [bank "600000.SH"]) "600000")
    as (_ & _ & H).
  destruct (H (bank "600000.SH") eq_refl) as [Hl Hd].
  split; [exact Hl|]. apply Hd. repeat constructor. intros [].
Defined.

(** X12: in [index.js], removing a symbol right after adding it, to a
    portfolio that did not hold it, gives the portfolio back as it was, in
    memory and, where the directory takes writes, on disk. *)
Theorem X12_index_remove_undoes_add w symbol shares purchasePrice name :
  (forall p, In p (portfolio w) ->
     Position.symbol p <> Index.formatStockCode symbol) ->
  portfolio (snd (Index.removePosition symbol
               (snd (Index.addPosition symbol shares purchasePrice name w))))
    = portfolio w /\
  (writable w = true ->
   portfolioFile (snd (Index.removePosition symbol
                    (snd (Index.addPosition symbol shares purchasePrice name w))))
     = Json (portfolio w)).
Proof.
  intros H. apply held_none in H.
  pose proof (addPosition_new index_js symbol shares purchasePrice name w H) as A.
  cbv zeta in A. simpl in A. rewrite A.
  assert (K : forall q,
            Position.symbol q = Index.formatStockCode symbol ->
            filter (fun p => negb (held (Index.formatStockCode symbol) p))
                   (portfolio w ++ [q])%list = portfolio w).
  { intros q Hq. rewrite filter_app, (filter_negb_none _ _ H). simpl.
    unfold held at 1. rewrite Hq, String.eqb_refl. simpl. apply app_nil_r. }
  destruct (writable w) eqn:W; cbn [snd];
    rewrite Index_removePosition_run; cbv zeta;
    cbn [writable portfolio set_portfolio set_portfolioFile];
    rewrite W, K by reflexivity;
    (split; [reflexivity|intros; first [reflexivity|discriminate]]).
Qed.

(** X12, witness: 600000 added to and removed from the first run. *)
Lemma X12_index_witness :
  portfolio (snd (Index.removePosition "600000"
               (snd (Index.addPosition "600000" 100 10 "" firstRun)))) = [] /\
  portfolioFile (snd (Index.removePosition "600000"
                   (snd (Index.addPosition "600000" 100 10 "" firstRun))))
    = Json [].
Proof.
  destruct (X12_index_remove_undoes_add firstRun "600000" 100 10 "")
    as [Hp Hf].
  - intros p [].
  - exact (conj Hp (Hf eq_refl)).
Defined.

Lemma In_updateFirst {A} (test : A -> bool) (u : A) l x :
  In x (updateFirst test (fun _ => u) l) -> In x l \/ x = u.
Proof.
  induction l as [|y r IH]; simpl; [intros []|].
  destruct (test y); simpl.
  - intros [<-|H]; [now right|left; now right].
  - intros [<-|H]; [left; now left|].
    destruct (IH H) as [I|I]; [left; now right|now right].
Qed.

(** X13: in [part_002], a position added under a bare code cannot be removed
    under that code.  [addPosition] stores the code with its exchange prefix,
    [removePosition] looks for the code as typed among names and stored
    symbols: it finds nothing, prints "Position not found" and leaves the
    portfolio alone. *)
Theorem X13_part002_bare_code_not_found w symbol shares purchasePrice name :
  includes "." symbol = false -> leads630 symbol = true ->
  name <> symbol ->
  (forall p, In p (portfolio w) ->
     Position.name p <> symbol /\ Position.symbol p <> symbol) ->
  let w1 := snd (Part002.addPosition symbol shares purchasePrice name w) in
  find (held (Part002.formatStockCode symbol)) (portfolio w1) <> None /\
  fst (Part002.removePosition symbol w1) = Return tt /\
  portfolio (snd (Part002.removePosition symbol w1)) = portfolio w1 /\
  stderr (snd (Part002.removePosition symbol w1))
    = (stderr w1 ++ ["Position not found"])%list.
Proof.
  intros D L N H w1.
  pose proof (Part002_moved _ D L) as M.
  assert (E : symbol <> "") by (intros ->; discriminate).
  pose proof (addPosition_portfolio_existing part_002 symbol shares
                purchasePrice name w) as Ex.
  pose proof (addPosition_new part_002 symbol shares purchasePrice name w) as Nw.
  simpl in Ex, Nw. fold w1 in Ex.
  assert (P : find (held (Part002.formatStockCode symbol)) (portfolio w1) <> None
              /\ forall p, In p (portfolio w1) ->
                   Position.name p <> symbol /\ Position.symbol p <> symbol).
  { destruct (find (held (Part002.formatStockCode symbol)) (portfolio w))
      as [e|] eqn:F.
    - destruct (Ex e eq_refl) as (u & Hp & Hf & _ & Hs & Hn & _).
      split; [now rewrite Hf|]. intros p Hp'. rewrite Hp in Hp'.
      apply In_updateFirst in Hp' as [I| ->]; [now apply H|].
      apply find_some in F as [Ie He]. destruct (H e Ie) as [Hen Hes].
      split; [|now rewrite Hs]. rewrite Hn.
      destruct (name =? "") eqn:Q; [exact Hen|exact N].
    - specialize (Nw eq_refl). cbv zeta in Nw. unfold w1. rewrite Nw.
      destruct (writable w); simpl; (split;
        [rewrite find_held_app, F; simpl; unfold held; simpl;
         rewrite String.eqb_refl; discriminate|]);
        intros p Hp'; apply in_app_or in Hp' as [I|[<-|[]]];
        try (now apply H); simpl; split; auto. }
  destruct P as [P1 P2]. split; [exact P1|].
  assert (F : find (fun p => (Position.name p =? symbol)
                             || (Position.symbol p =? symbol)) (portfolio w1)
              = None).
  { apply find_none_iff. intros p Hp. destruct (P2 p Hp) as [Nn Ns].
    apply String.eqb_neq in Nn, Ns. now rewrite Nn, Ns. }
  rewrite (Part002_removePosition_missed _ _ F). repeat split.
Qed.

(** X13, witness: 600000 bought on the first run, then removed as typed. *)
Lemma X13_part002_witness :
  portfolio (snd (Part002.removePosition "600000"
               (snd (Part002.addPosition "600000" 100 10 "" firstRun))))
    = portfolio (snd (Part002.addPosition "600000" 100 10 "" firstRun)) /\
  stderr (snd (Part002.removePosition "600000"
               (snd (Part002.addPosition "600000" 100 10 "" firstRun))))
    = ["Position not found"].
Proof.
  destruct (X13_part002_bare_code_not_found firstRun "600000" 100 10 ""
              eq_refl eq_refl ltac:(discriminate) ltac:(intros p []))
    as (_ & _ & Hp & He).
  exact (conj Hp He).
Defined.

(** X14: in [part_002], removing under a stored symbol works when that
    symbol formats to itself (as "sh600000" does): the symbol then resolves
    to nothing, the console stays silent, and where the directory takes
    writes the call returns normally with disk and memory in agreement. *)
Theorem X14_part002_remove_stored w key e :
  find (held key) (portfolio w) = Some e ->
  Part002.formatStockCode key = key ->
  find (held key) (portfolio (snd (Part002.removePosition key w))) = None /\
  stderr (snd (Part002.removePosition key w)) = stderr w /\
  (writable w = true ->
     fst (Part002.removePosition key w) = Return tt /\
     synced (snd (Part002.removePosition key w))).
Proof.
  intros F Fix.
  destruct (find (fun p => (Position.name p =? key)
                           || (Position.symbol p =? key)) (portfolio w))
    as [m|] eqn:G.
  - rewrite (Part002_removePosition_found _ _ _ G). cbv zeta. rewrite Fix.
    unfold synced.
    destruct (writable w); simpl; (split; [apply find_held_removed|]);
      (split; [reflexivity|]); intros; [split; reflexivity|discriminate].
  - apply find_some in F as [I Hh].
    pose proof (find_none _ _ G e I) as C. cbv beta in C.
    unfold held in Hh. rewrite Hh, orb_true_r in C. discriminate.
Qed.

(** X14, witness: removing "sh600000" from a portfolio that holds it. *)
Lemma X14_part002_witness :
  find (held "sh600000")
       (portfolio (snd (Part002.removePosition "sh600000"
                          (holding [bank "sh600000"])))) = None /\
  fst (Part002.removePosition "sh600000" (holding [bank "sh600000"]))
    = Return tt.
Proof.
  destruct (X14_part002_remove_stored (holding [bank "sh600000"]) "sh600000"
              (bank "sh600000") eq_refl eq_refl) as (Hf & _ & Hw).
  exact (conj Hf (proj1 (Hw eq_refl))).
Defined.

(** ** Saving *)

(** X15: a save that fails leaves the change in memory only.  In a
    directory that refuses writes, [addPosition] (either revision) and the
    [removePosition] of [index.js] end in the write's error with the file
    untouched, while the field already holds the result: the added symbol
    resolves, the removed one does not. *)
Theorem X15_failed_save_keeps_memory r w symbol shares purchasePrice name :
  writable w = false ->
  (fst (addPosition r symbol shares purchasePrice name w) = Throw EACCES /\
   portfolioFile (snd (addPosition r symbol shares purchasePrice name w))
     = portfolioFile w /\
   find (held (formatStockCode r symbol))
        (portfolio (snd (addPosition r symbol shares purchasePrice name w)))
     <> None) /\
  (fst (Index.removePosition symbol w) = Throw EACCES /\
   portfolioFile (snd (Index.removePosition symbol w)) = portfolioFile w /\
   find (held (Index.formatStockCode symbol))
        (portfolio (snd (Index.removePosition symbol w))) = None).
Proof.
  intros W. split.
  - destruct (find (held (formatStockCode r symbol)) (portfolio w)) as [e|] eqn:F.
    + pose proof (addPosition_portfolio_existing r symbol shares purchasePrice
                    name w e F) as (u & _ & Hf & _).
      rewrite Hf. rewrite (addPosition_existing _ _ _ _ _ _ _ F), W.
      repeat split. discriminate.
    + rewrite (addPosition_new _ _ _ _ _ _ F), W. cbv zeta. simpl.
      repeat split. rewrite find_held_app, F. simpl. unfold held. simpl.
      rewrite String.eqb_refl. discriminate.
  - rewrite Index_removePosition_run, W. cbv zeta. simpl.
    repeat split. apply find_held_removed.
Qed.

(** X15, witness: a first purchase in a directory that refuses writes. *)
Lemma X15_failed_save_witness :
  fst (addPosition part_002 "600000" 100 10 "" readOnlyRun) = Throw EACCES /\
  portfolioFile (snd (addPosition part_002 "600000" 100 10 "" readOnlyRun))
    = Corrupt /\
  find (held "sh600000")
       (portfolio (snd (addPosition part_002 "600000" 100 10 "" readOnlyRun)))
    <> None.
Proof.
  exact (proj1 (X15_failed_save_keeps_memory part_002 readOnlyRun "600000"
                  100 10 "" eq_refl)).
Defined.



(** X17: what [addPosition] returns is what the portfolio then holds under
    the formatted symbol: the returned object is the stored one, for a merge
    as for a first purchase. *)
Theorem X17_add_returns_stored r w symbol shares purchasePrice name e' :
  fst (addPosition r symbol shares purchasePrice name w) = Return e' ->
  find (held (formatStockCode r symbol))
       (portfolio (snd (addPosition r symbol shares purchasePrice name w)))
    = Some e' /\
  Position.symbol e' = formatStockCode r symbol.
Proof.
  destruct (find (held (formatStockCode r symbol)) (portfolio w)) as [e|] eqn:F.
  - pose proof (held_found _ _ _ F) as S.
    rewrite (addPosition_existing _ _ _ _ _ _ _ F). cbv zeta.
    destruct (writable w); simpl; [|discriminate].
    intros [= <-]. split; [|exact S].
    apply (find_updateFirst _ (fun _ => _) _ e F).
    unfold held. simpl. now apply String.eqb_eq.
  - rewrite (addPosition_new _ _ _ _ _ _ F). cbv zeta.
    destruct (writable w); simpl; [|discriminate].
    destruct r; [discriminate|]. intros [= <-]. split; [|reflexivity].
    rewrite find_held_app, F. simpl. unfold held. simpl.
    now rewrite String.eqb_refl.
Qed.

(** X17, witness: the first purchase of [part_002] on the first run. *)
Lemma X17_add_witness :
  exists e',
    fst (addPosition part_002 "600000" 100 10 "" firstRun) = Return e' /\
    find (held "sh600000")
         (portfolio (snd (addPosition part_002 "600000" 100 10 "" firstRun)))
      = Some e'.
Proof.
  eexists. split; [reflexivity|].
  exact (proj1 (X17_add_returns_stored part_002 firstRun "600000" 100 10 ""
                  _ eq_refl)).
Defined.

(** ** The choices of [part_002] *)

(** X18: [getPortfolioSymbols] offers what is on disk, not what is in
    memory: one choice per position of the reloaded portfolio, in order,
    whose value is the stored symbol and whose label is never empty between
    its parentheses.  It has no [catch] of its own: when the file can neither
    be read nor rewritten it ends in the write's error. *)
Theorem X18_getPortfolioSymbols_lists_disk (w : World) :
  (loads w = true ->
     exists choices,
       fst (Part002.getPortfolioSymbols w) = Return choices /\
       map Choice.value choices = map Position.symbol (reloaded w) /\
       Forall (fun c => exists label,
                 label <> "" /\
                 Choice.name c = Choice.value c ++ " (" ++ label ++ ")")
              choices) /\
  (loads w = false -> fst (Part002.getPortfolioSymbols w) = Throw EACCES).
Proof.
  unfold loads, reloaded, Part002.getPortfolioSymbols, bind.
  rewrite loadPortfolio_run.
  assert (K : forall l : list Position.t,
            Forall (fun c => exists label,
                      label <> "" /\
                      Choice.name c = Choice.value c ++ " (" ++ label ++ ")")
              (map (fun position =>
                      {| Choice.name :=
                           Position.symbol position ++ " ("
                           ++ (if Position.name position =? "" then "No Name"
                               else Position.name position)
                           ++ ")";
                         Choice.value := Position.symbol position |}) l)).
  { intros l. apply Forall_forall. intros c Hc.
    apply in_map_iff in Hc as (p & <- & _). simpl.
    destruct (Position.name p =? "") eqn:E.
    - exists "No Name". split; [discriminate|reflexivity].
    - exists (Position.name p). split; [now apply String.eqb_neq|reflexivity]. }
  split; intros L.
  - destruct (portfolioFile w) as [| |doc]; try rewrite L; simpl;
      eexists; (split; [reflexivity|]);
      (split; [|first [apply K | constructor]]);
      rewrite ?map_map; reflexivity.
  - destruct (portfolioFile w); try discriminate; now rewrite L.
Qed.

(** X18, witness: a portfolio of one position on disk. *)
Lemma X18_getPortfolioSymbols_witness :
  exists choices,
    fst (Part002.getPortfolioSymbols (holding [bank "sh600000"]))
      = Return choices /\
    map Choice.value choices = ["sh600000"].
Proof.
  destruct (proj1 (X18_getPortfolioSymbols_lists_disk
                     (holding [bank "sh600000"])) eq_refl)
    as (choices & Hr & Hv & _).
  exists choices. exact (conj Hr Hv).
Defined.

(** ** Symbols as keys *)

Lemma split_qualified code suffix :
  includes "." code = false -> includes "." suffix = false ->
  split "." (code ++ String "." suffix) = [code; suffix].
Proof.
  intros C S. now rewrite (split_app _ _ _ C), (split_plain _ _ S).
Qed.

Lemma Part002_prefixed s :
  includes "." s = false -> leads630 s = true ->
  Part002.formatStockCode s = "sh" ++ s \/ Part002.formatStockCode s = "sz" ++ s.
Proof.
  intros D L. rewrite (Part002_plain _ D). unfold leads630 in L.
  destruct (startsWith "6" s); [now left|]. simpl in L. rewrite L. now right.
Qed.

(** X19: distinct bare codes get distinct keys.  In [index.js] two symbols
    without separator that format to the same key are the same symbol; in
    [part_002] the same holds of two symbols that begin with "6", "0" or
    "3". *)
Theorem X19_formatStockCode_separates (s t : string) :
  includes "." s = false -> includes "." t = false ->
  (Index.formatStockCode s = Index.formatStockCode t -> s = t) /\
  (leads630 s = true -> leads630 t = true ->
   Part002.formatStockCode s = Part002.formatStockCode t -> s = t).
Proof.
  intros Ds Dt. split.
  - rewrite (Index_plain _ Ds), (Index_plain _ Dt).
    assert (Q : forall a b x y,
              includes "." a = false -> includes "." b = false ->
              includes "." x = false -> includes "." y = false ->
              a ++ String "." x = b ++ String "." y -> a = b).
    { intros a b x y Ha Hb Hx Hy E. apply (f_equal (split ".")) in E.
      rewrite !split_qualified in E by assumption. now injection E. }
    assert (P : forall a b x,
              includes "." b = false -> a ++ String "." x <> b).
    { intros a b x Hb E. rewrite <- E, includes_app in Hb. simpl in Hb.
      rewrite orb_true_r in Hb. discriminate. }
    destruct (startsWith "6" s), (startsWith "6" t);
      destruct (startsWith "0" s || startsWith "3" s),
               (startsWith "0" t || startsWith "3" t);
      cbv iota; intros E;
      first [ exact E
            | refine (Q _ _ _ _ Ds Dt _ _ E); reflexivity
            | now destruct (P _ _ _ Dt E)
            | symmetry in E; now destruct (P _ _ _ Ds E) ].
  - intros Ls Lt.
    destruct (Part002_prefixed _ Ds Ls) as [-> | ->];
      destruct (Part002_prefixed _ Dt Lt) as [-> | ->];
      simpl; intros E; first [now injection E | discriminate].
Qed.

(** X19, witness: "600000" and "601398" get different keys. *)
Lemma X19_formatStockCode_witness :
  Index.formatStockCode "600000" <> Index.formatStockCode "601398" /\
  Part002.formatStockCode "600000" <> Part002.formatStockCode "601398".
Proof.
  destruct (X19_formatStockCode_separates "600000" "601398" eq_refl eq_refl)
    as [Hi Hp].
  split; intros E.
  - apply Hi in E. discriminate.
  - apply (Hp eq_refl eq_refl) in E. discriminate.
Defined.
